(** * QXmppStream: the base XMPP stream and its stream-management ledger

    A shallow embedding of [src/base/QXmppStream.cpp].  The private data of
    the stream ([QXmppStreamPrivate]) is a record, every member function is a
    computation in a small state monad over the stream, and the calls that
    leave the class (socket, logger, virtual handlers) are kept in a trace.

    Facilities that live outside the file (the Qt XML parser, regular
    expressions and string trimming, the socket, the stream-management frame
    classes and the virtual handlers of subclasses) are parameters, bundled
    as type classes. *)

From Stdlib Require Import Ascii String.
From stdpp Require Import gmap strings list fin_maps sorting pretty.

Local Open Scope N_scope.
Set Warnings "-register-all,-clear-no-such-hyp".

(** ** Machine integers *)

(** [unsigned] in the source is a 32-bit integer: [++x] wraps around. *)
Definition UINT_MODULUS : N := 2 ^ 32.
Definition uint_incr (n : N) : N := (n + 1) mod UINT_MODULUS.

(** ** Qt strings *)

(** A [QString] is carried by a [string]: the text as a sequence of code
    units, in an encoding in which an ASCII character is one unit and occurs
    in no other character (UTF-8, say).  What the stream itself does with a
    text -- appending, testing for emptiness, comparing its end with the
    ASCII closing tag -- reads the same on this carrier.  Which characters
    are whitespace is decided by Qt ([QChar::isSpace], over all of Unicode),
    so [QString::trimmed] is a parameter, see [QStringOps] below. *)
Definition isEmpty (s : string) : bool :=
  match s with EmptyString => true | String _ _ => false end.

(** [QString::contains(QRegExp("</stream:stream>$"))]: the text ends with the
    closing tag of the stream. *)
Definition streamRootElementEnd : string := "</stream:stream>".

Definition endsWith (suffix s : string) : bool :=
  let n := String.length s in
  let k := String.length suffix in
  (k <=? n)%nat && String.eqb (substring (n - k) k s) suffix.

Definition contains_endStreamRegex (s : string) : bool :=
  endsWith streamRootElementEnd s.

(** ** DOM elements *)

(** [QDomElement], as far as the stream looks at it: a null element, or an
    element with its tag name, namespace, attributes and child elements. *)
Inductive QDomElement : Type :=
| DomNull
| DomElem (tag : string) (ns : string) (attrs : list (string * string))
          (children : list QDomElement).

Definition isNull (e : QDomElement) : bool :=
  match e with DomNull => true | DomElem _ _ _ _ => false end.

Definition tagName (e : QDomElement) : string :=
  match e with DomNull => EmptyString | DomElem t _ _ _ => t end.

Definition namespaceURI (e : QDomElement) : string :=
  match e with DomNull => EmptyString | DomElem _ n _ _ => n end.

Definition childElements (e : QDomElement) : list QDomElement :=
  match e with DomNull => [] | DomElem _ _ _ cs => cs end.

Fixpoint attribute_in (name : string) (l : list (string * string)) : string :=
  match l with
  | [] => EmptyString
  | (k, v) :: l' => if String.eqb k name then v else attribute_in name l'
  end.

Definition attribute (name : string) (e : QDomElement) : string :=
  match e with DomNull => EmptyString | DomElem _ _ a _ => attribute_in name a end.

(** The test of lines 277-279: the element is a message, a presence or an iq. *)
Definition isCountedStanza (e : QDomElement) : bool :=
  String.eqb (tagName e) "message" ||
  String.eqb (tagName e) "presence" ||
  String.eqb (tagName e) "iq".

(** ** Stanzas to send *)

(** A [QXmppStanza] as [sendPacket] sees it: what [toXml] writes and what
    [isXmppStanza] answers. *)
Record QXmppStanza : Type := mkStanza {
  toXml : string;
  isXmppStanza : bool
}.

(** ** Collaborators *)

(** The socket ([QXmppSocket]).  A value of [Sock] is the state of the socket
    object; the operations return the state after the call. *)
Class SocketOps (Sock : Type) : Type := {
  (** [state() == QAbstractSocket::ConnectedState] *)
  sock_isConnected : Sock -> bool;
  sock_sendTextMessage : string -> Sock -> bool * Sock;
  sock_flush : Sock -> Sock;
  sock_disconnectFromHost : Sock -> Sock;
  sock_peerAddress : Sock -> string;
  sock_peerPort : Sock -> string;
  sock_errorString : Sock -> string
}.

(** The Qt XML facilities used by [handleTextMessageReceived]. *)
Class XmlOps : Type := {
  (** [QDomDocument::setContent(text, true)] followed by [documentElement()];
      [None] when the text is not a well-formed document. *)
  setContent : string -> option QDomElement;
  (** The minimal match of [^(<\?xml.*\?>)?\s*<stream:stream.*>] in the text:
      [Some cap0] when [contains] answers true, [cap0] being [cap(0)]. *)
  startStreamRegex_match : string -> option string
}.

(** [QString::trimmed]: the text without the whitespace at its two ends,
    whitespace being what [QChar::isSpace] says. *)
Class QStringOps : Type := {
  trimmed : string -> string
}.

(** The frames of XEP-0198 ([QXmppStreamManagementAck], [QXmppStreamManagementReq]). *)
Class StreamManagementFrames : Type := {
  isStreamManagementAck : QDomElement -> bool;
  isStreamManagementReq : QDomElement -> bool;
  (** [ack.parse(element); ack.seqNo()] *)
  ack_seqNo : QDomElement -> N;
  (** [QXmppStreamManagementAck(h).toXml] *)
  ack_toXml : N -> string;
  (** [QXmppStreamManagementReq::toXml] *)
  req_toXml : string
}.

(** ** State of a stream *)

Inductive MessageType : Type :=
| DebugMessage | InformationMessage | WarningMessage | ReceivedMessage | SentMessage.

(** Calls that leave the class. *)
Inductive Event : Type :=
| Logged (type : MessageType) (text : string)
| SocketSendTextMessage (text : string)
| SocketFlush
| SocketDisconnectFromHost
| CalledHandleStanza (element : QDomElement)
| CalledHandleStream (element : QDomElement).

Section Stream.

Context {Sock : Type}.

Record QXmppStreamPrivate : Type := mkPrivate {
  dataBuffer : string;
  socket : option Sock;
  streamStart : string;
  streamManagementEnabled : bool;
  unacknowledgedStanzas : gmap N string;
  lastOutgoingSequenceNumber : N;
  lastIncomingSequenceNumber : N
}.

(** [QXmppStreamPrivate::QXmppStreamPrivate] *)
Definition QXmppStreamPrivate_new : QXmppStreamPrivate :=
  {| dataBuffer := EmptyString;
     socket := None;
     streamStart := EmptyString;
     streamManagementEnabled := false;
     unacknowledgedStanzas := ∅;
     lastOutgoingSequenceNumber := 0;
     lastIncomingSequenceNumber := 0 |}.

Definition set_dataBuffer (v : string) (p : QXmppStreamPrivate) :=
  {| dataBuffer := v; socket := socket p; streamStart := streamStart p;
     streamManagementEnabled := streamManagementEnabled p;
     unacknowledgedStanzas := unacknowledgedStanzas p;
     lastOutgoingSequenceNumber := lastOutgoingSequenceNumber p;
     lastIncomingSequenceNumber := lastIncomingSequenceNumber p |}.

Definition set_socket (v : option Sock) (p : QXmppStreamPrivate) :=
  {| dataBuffer := dataBuffer p; socket := v; streamStart := streamStart p;
     streamManagementEnabled := streamManagementEnabled p;
     unacknowledgedStanzas := unacknowledgedStanzas p;
     lastOutgoingSequenceNumber := lastOutgoingSequenceNumber p;
     lastIncomingSequenceNumber := lastIncomingSequenceNumber p |}.

Definition set_streamStart (v : string) (p : QXmppStreamPrivate) :=
  {| dataBuffer := dataBuffer p; socket := socket p; streamStart := v;
     streamManagementEnabled := streamManagementEnabled p;
     unacknowledgedStanzas := unacknowledgedStanzas p;
     lastOutgoingSequenceNumber := lastOutgoingSequenceNumber p;
     lastIncomingSequenceNumber := lastIncomingSequenceNumber p |}.

Definition set_streamManagementEnabled (v : bool) (p : QXmppStreamPrivate) :=
  {| dataBuffer := dataBuffer p; socket := socket p; streamStart := streamStart p;
     streamManagementEnabled := v;
     unacknowledgedStanzas := unacknowledgedStanzas p;
     lastOutgoingSequenceNumber := lastOutgoingSequenceNumber p;
     lastIncomingSequenceNumber := lastIncomingSequenceNumber p |}.

Definition set_unacknowledgedStanzas (v : gmap N string) (p : QXmppStreamPrivate) :=
  {| dataBuffer := dataBuffer p; socket := socket p; streamStart := streamStart p;
     streamManagementEnabled := streamManagementEnabled p;
     unacknowledgedStanzas := v;
     lastOutgoingSequenceNumber := lastOutgoingSequenceNumber p;
     lastIncomingSequenceNumber := lastIncomingSequenceNumber p |}.

Definition set_lastOutgoingSequenceNumber (v : N) (p : QXmppStreamPrivate) :=
  {| dataBuffer := dataBuffer p; socket := socket p; streamStart := streamStart p;
     streamManagementEnabled := streamManagementEnabled p;
     unacknowledgedStanzas := unacknowledgedStanzas p;
     lastOutgoingSequenceNumber := v;
     lastIncomingSequenceNumber := lastIncomingSequenceNumber p |}.

Definition set_lastIncomingSequenceNumber (v : N) (p : QXmppStreamPrivate) :=
  {| dataBuffer := dataBuffer p; socket := socket p; streamStart := streamStart p;
     streamManagementEnabled := streamManagementEnabled p;
     unacknowledgedStanzas := unacknowledgedStanzas p;
     lastOutgoingSequenceNumber := lastOutgoingSequenceNumber p;
     lastIncomingSequenceNumber := v |}.

(** A stream object: its private data [d] and the calls it has made so far,
    oldest first. *)
Record QXmppStream : Type := mkStream {
  d : QXmppStreamPrivate;
  trace : list Event
}.

(** [QXmppStream::QXmppStream] *)
Definition QXmppStream_new : QXmppStream :=
  {| d := QXmppStreamPrivate_new; trace := [] |}.

(** ** The monad of member functions *)

Definition M (A : Type) : Type := QXmppStream -> A * QXmppStream.

Definition ret {A : Type} (a : A) : M A := fun w => (a, w).

Definition bind {A B : Type} (m : M A) (k : A -> M B) : M B :=
  fun w => let (a, w') := m w in k a w'.

Definition gets {A : Type} (f : QXmppStreamPrivate -> A) : M A :=
  fun w => (f (d w), w).

Definition modify (f : QXmppStreamPrivate -> QXmppStreamPrivate) : M unit :=
  fun w => (tt, {| d := f (d w); trace := trace w |}).

Definition emit (e : Event) : M unit :=
  fun w => (tt, {| d := d w; trace := trace w ++ [e] |}).

Definition when (b : bool) (m : M unit) : M unit :=
  if b then m else ret tt.

(** Run a computation for its effect on the stream / for its result. *)
Definition exec {A : Type} (m : M A) (w : QXmppStream) : QXmppStream := snd (m w).
Definition eval {A : Type} (m : M A) (w : QXmppStream) : A := fst (m w).

End Stream.

Arguments QXmppStreamPrivate : clear implicits.
Arguments QXmppStream : clear implicits.
Arguments M : clear implicits.

Declare Scope stream_scope.
Delimit Scope stream_scope with stream.
Notation "x <- m ;; k" := (bind m (fun x => k))
  (at level 100, m at next level, k at level 200, right associativity) : stream_scope.
Notation "m ;;; k" := (bind m (fun _ => k))
  (at level 100, k at level 200, right associativity) : stream_scope.

(** The virtual member functions a subclass supplies ([handleStanza] and
    [handleStream] are pure virtual in [QXmppStream]). *)
Class StreamHandlers (Sock : Type) : Type := {
  handleStanza : QDomElement -> M Sock unit;
  handleStream : QDomElement -> M Sock unit
}.

(** ** QMap *)

(** [QMap<unsigned, QString>] is a [gmap N string]; its iterators visit the
    entries by ascending key. *)
Definition key_le (a b : N * string) : Prop := a.1 <= b.1.

#[global] Instance key_le_dec (a b : N * string) : Decision (key_le a b) :=
  decide (a.1 <= b.1).

Definition QMap_items (m : gmap N string) : list (N * string) :=
  merge_sort key_le (map_to_list m).

Definition QMap_empty (m : gmap N string) : bool :=
  match map_to_list m with [] => true | _ :: _ => false end.

(** ** Member functions of QXmppStream *)

Section Members.

Context {Sock : Type} `{!SocketOps Sock} `{!XmlOps} `{!QStringOps}
        `{!StreamManagementFrames} `{!StreamHandlers Sock}.

Local Open Scope stream_scope.

(** [QXmppLoggable]: [debug], [info], [warning], [logReceived], [logSent]
    emit the [logMessage] signal. *)
Definition debug (text : string) : M Sock unit := emit (Logged DebugMessage text).
Definition info (text : string) : M Sock unit := emit (Logged InformationMessage text).
Definition warning (text : string) : M Sock unit := emit (Logged WarningMessage text).
Definition logReceived (text : string) : M Sock unit := emit (Logged ReceivedMessage text).
Definition logSent (text : string) : M Sock unit := emit (Logged SentMessage text).

(** Calls of the virtual handlers, recorded in the trace. *)
Definition call_handleStanza (e : QDomElement) : M Sock unit :=
  emit (CalledHandleStanza e) ;;; handleStanza e.

Definition call_handleStream (e : QDomElement) : M Sock unit :=
  emit (CalledHandleStream e) ;;; handleStream e.

(** [QXmppStream::isConnected] *)
Definition isConnected : M Sock bool :=
  s <- gets socket ;;
  ret (match s with Some sk => sock_isConnected sk | None => false end).

(** [QXmppStream::sendData(const QString &)] (the [QByteArray] overload
    converts and calls this one). *)
Definition sendData (text : string) : M Sock bool :=
  logSent text ;;;
  s <- gets socket ;;
  match s with
  | None => ret false
  | Some sk =>
      if negb (sock_isConnected sk) then ret false
      else
        let (ok, sk') := sock_sendTextMessage text sk in
        emit (SocketSendTextMessage text) ;;;
        modify (set_socket (Some sk')) ;;;
        ret ok
  end.

(** [QXmppStream::sendAcknowledgement] *)
Definition sendAcknowledgement : M Sock unit :=
  en <- gets streamManagementEnabled ;;
  if negb en then ret tt
  else
    h <- gets lastIncomingSequenceNumber ;;
    _ <- sendData (ack_toXml h) ;;
    ret tt.

(** [QXmppStream::sendAcknowledgementRequest] *)
Definition sendAcknowledgementRequest : M Sock unit :=
  en <- gets streamManagementEnabled ;;
  if negb en then ret tt
  else
    _ <- sendData req_toXml ;;
    ret tt.

(** [d->unacknowledgedStanzas[++d->lastOutgoingSequenceNumber] = text] *)
Definition registerUnacknowledged (text : string) : M Sock unit :=
  modify (fun p => set_lastOutgoingSequenceNumber
                     (uint_incr (lastOutgoingSequenceNumber p)) p) ;;;
  modify (fun p => set_unacknowledgedStanzas
                     (<[lastOutgoingSequenceNumber p := text]> (unacknowledgedStanzas p)) p).

(** [QXmppStream::sendPacket] *)
Definition sendPacket (packet : QXmppStanza) : M Sock bool :=
  let text := toXml packet in
  let isStanza := isXmppStanza packet in
  en <- gets streamManagementEnabled ;;
  when (isStanza && en) (registerUnacknowledged text) ;;;
  success <- sendData text ;;
  when isStanza sendAcknowledgementRequest ;;;
  ret success.

(** An operation on the socket object, when there is one. *)
Definition onSocket (ev : Event) (f : Sock -> Sock) : M Sock unit :=
  s <- gets socket ;;
  match s with
  | None => ret tt
  | Some sk => emit ev ;;; modify (set_socket (Some (f sk)))
  end.

(** [QXmppStream::disconnectFromHost] *)
Definition disconnectFromHost : M Sock unit :=
  modify (set_streamManagementEnabled false) ;;;
  s <- gets socket ;;
  match s with
  | None => ret tt
  | Some sk =>
      (if sock_isConnected sk then
         _ <- sendData streamRootElementEnd ;;
         onSocket SocketFlush sock_flush
       else ret tt) ;;;
      onSocket SocketDisconnectFromHost sock_disconnectFromHost
  end.

(** [QXmppStream::handleStart] *)
Definition handleStart : M Sock unit :=
  modify (set_streamManagementEnabled false) ;;;
  modify (set_dataBuffer EmptyString) ;;;
  modify (set_streamStart EmptyString).

(** [QXmppStream::socket] and [QXmppStream::setSocket] (the signal
    connections are the four event handlers below). *)
Definition getSocket : M Sock (option Sock) := gets socket.
Definition setSocket (s : option Sock) : M Sock unit := modify (set_socket s).

(** The slots dereference [d->socket]: on a null socket the call has no
    defined result, which is [None] here. *)
Definition _q_socketConnected (w : QXmppStream Sock) : option (QXmppStream Sock) :=
  match socket (d w) with
  | None => None
  | Some sk =>
      Some (exec (info ("Socket connected to " +:+ sock_peerAddress sk +:+ " "
                        +:+ sock_peerPort sk) ;;;
                  handleStart) w)
  end.

Definition _q_socketEncrypted : M Sock unit :=
  debug "Socket encrypted" ;;; handleStart.

Definition _q_socketError (w : QXmppStream Sock) : option (QXmppStream Sock) :=
  match socket (d w) with
  | None => None
  | Some sk => Some (exec (warning ("Socket error: " +:+ sock_errorString sk)) w)
  end.

(** [QXmppStream::setAcknowledgedSequenceNumber]: the iterator walks the map
    and erases every entry whose key is at most the sequence number. *)
Definition erase_acknowledged (sequenceNumber : N) (m : gmap N string)
    (it : N * string) : gmap N string :=
  if it.1 <=? sequenceNumber then delete it.1 m else m.

Definition setAcknowledgedSequenceNumber (sequenceNumber : N) : M Sock unit :=
  modify (fun p => set_unacknowledgedStanzas
                     (foldl (erase_acknowledged sequenceNumber)
                            (unacknowledgedStanzas p)
                            (QMap_items (unacknowledgedStanzas p))) p).

(** [QXmppStream::handleAcknowledgement] *)
Definition handleAcknowledgement (element : QDomElement) : M Sock unit :=
  en <- gets streamManagementEnabled ;;
  if negb en then ret tt
  else setAcknowledgedSequenceNumber (ack_seqNo element).

(** A [for] loop over the entries of a map. *)
Fixpoint forEach (items : list (N * string)) (body : N * string -> M Sock unit) : M Sock unit :=
  match items with
  | [] => ret tt
  | it :: rest => body it ;;; forEach rest body
  end.

(** [QXmppStream::enableStreamManagement] *)
Definition enableStreamManagement (resetSequenceNumber : bool) : M Sock unit :=
  modify (set_streamManagementEnabled true) ;;;
  if resetSequenceNumber then
    modify (set_lastOutgoingSequenceNumber 0) ;;;
    modify (set_lastIncomingSequenceNumber 0) ;;;
    oldUnackedStanzas <- gets unacknowledgedStanzas ;;
    if negb (QMap_empty oldUnackedStanzas) then
      modify (set_unacknowledgedStanzas ∅) ;;;
      forEach (QMap_items oldUnackedStanzas)
              (fun it => registerUnacknowledged it.2 ;;;
                         _ <- sendData it.2 ;; ret tt) ;;;
      sendAcknowledgementRequest
    else ret tt
  else
    unacked <- gets unacknowledgedStanzas ;;
    if negb (QMap_empty unacked) then
      forEach (QMap_items unacked) (fun it => _ <- sendData it.2 ;; ret tt) ;;;
      sendAcknowledgementRequest
    else ret tt.

(** [QXmppStream::lastIncomingSequenceNumber] *)
Definition getLastIncomingSequenceNumber : M Sock N := gets lastIncomingSequenceNumber.

(** The body of the loop over the children of the document element
    (lines 271-281). *)
Definition processStanza (nodeRecv : QDomElement) : M Sock unit :=
  if isStreamManagementAck nodeRecv then handleAcknowledgement nodeRecv
  else if isStreamManagementReq nodeRecv then sendAcknowledgement
  else
    call_handleStanza nodeRecv ;;;
    when (isCountedStanza nodeRecv)
         (modify (fun p => set_lastIncomingSequenceNumber
                             (uint_incr (lastIncomingSequenceNumber p)) p)).

(** The loop itself: it runs from [firstChildElement()] along
    [nextSiblingElement()] and stops at a null element. *)
Fixpoint processStanzas (nodes : list QDomElement) : M Sock unit :=
  match nodes with
  | [] => ret tt
  | nodeRecv :: rest =>
      if isNull nodeRecv then ret tt
      else processStanza nodeRecv ;;; processStanzas rest
  end.

(** The condition of line 225. *)
Definition isWhitespacePing (buffer : string) : bool :=
  negb (isEmpty buffer) && isEmpty (trimmed buffer).

(** Lines 241-251: the document handed to the parser, with the match of the
    start of the stream (when there is one) and whether the buffer ends the
    stream. *)
Definition streamStartMatch (p : QXmppStreamPrivate Sock) : option string :=
  if isEmpty (streamStart p) then startStreamRegex_match (dataBuffer p) else None.

Definition completeXml (p : QXmppStreamPrivate Sock) : string :=
  let xml := match streamStartMatch p with
             | Some _ => dataBuffer p
             | None => streamStart p +:+ dataBuffer p
             end in
  if contains_endStreamRegex (dataBuffer p) then xml
  else xml +:+ streamRootElementEnd.

(** [QXmppStream::handleTextMessageReceived] *)
Definition handleTextMessageReceived (text : string) : M Sock unit :=
  modify (fun p => set_dataBuffer (dataBuffer p +:+ text) p) ;;;
  buffer <- gets dataBuffer ;;
  if isWhitespacePing buffer then
    modify (set_dataBuffer EmptyString) ;;;
    call_handleStanza DomNull
  else
    startMatch <- gets streamStartMatch ;;
    xml <- gets completeXml ;;
    let streamEnd := contains_endStreamRegex buffer in
    match setContent xml with
    | None => ret tt
    | Some documentElement =>
        logReceived text ;;;
        modify (set_dataBuffer EmptyString) ;;;
        match startMatch with
        | Some cap0 =>
            modify (set_streamStart cap0) ;;;
            call_handleStream documentElement
        | None => ret tt
        end ;;;
        processStanzas (childElements documentElement) ;;;
        when streamEnd disconnectFromHost
    end.

End Members.

(** ** What a run leaves behind *)

(** The private data apart from the socket object. *)
Definition sans_socket {Sock : Type} (p : QXmppStreamPrivate Sock) :=
  (dataBuffer p, streamStart p, streamManagementEnabled p,
   unacknowledgedStanzas p, lastOutgoingSequenceNumber p,
   lastIncomingSequenceNumber p).

(** The texts given to [sendData], in call order ([sendData] logs each one
    with [logSent] before it looks at the socket). *)
Fixpoint sentTexts (tr : list Event) : list string :=
  match tr with
  | [] => []
  | Logged SentMessage text :: tr' => text :: sentTexts tr'
  | _ :: tr' => sentTexts tr'
  end.

(** The texts given to the socket. *)
Fixpoint wireTexts (tr : list Event) : list string :=
  match tr with
  | [] => []
  | SocketSendTextMessage text :: tr' => text :: wireTexts tr'
  | _ :: tr' => wireTexts tr'
  end.

(** The elements given to [handleStanza]. *)
Fixpoint dispatched (tr : list Event) : list QDomElement :=
  match tr with
  | [] => []
  | CalledHandleStanza e :: tr' => e :: dispatched tr'
  | _ :: tr' => dispatched tr'
  end.

(** Sending a list of packets one after the other: the stream afterwards,
    and the value of [lastOutgoingSequenceNumber] right after each packet
    that is an XMPP stanza. *)
Section Sending.

Context {Sock : Type} `{!SocketOps Sock} `{!StreamManagementFrames}.

Fixpoint sendPackets (packets : list QXmppStanza) (w : QXmppStream Sock)
    : QXmppStream Sock :=
  match packets with
  | [] => w
  | p :: rest => sendPackets rest (exec (sendPacket p) w)
  end.

Fixpoint assignedSequenceNumbers (packets : list QXmppStanza) (w : QXmppStream Sock)
    : list N :=
  match packets with
  | [] => []
  | p :: rest =>
      let w' := exec (sendPacket p) w in
      if isXmppStanza p
      then lastOutgoingSequenceNumber (d w') :: assignedSequenceNumbers rest w'
      else assignedSequenceNumbers rest w'
  end.

End Sending.

(** Every sequence number in the ledger lies between 1 and the last one
    assigned. *)
Definition ledger_numbered {Sock : Type} (p : QXmppStreamPrivate Sock) : Prop :=
  forall k v, unacknowledgedStanzas p !! k = Some v ->
              1 <= k /\ k <= lastOutgoingSequenceNumber p.

(** The children of a document that the loop gives to [handleStanza]:
    those that are neither an acknowledgement nor a request. *)
Definition isForHandler `{!StreamManagementFrames} (e : QDomElement) : bool :=
  negb (isStreamManagementAck e) && negb (isStreamManagementReq e).

(** The counter and the ledger after entering a list of texts one by one,
    each under the freshly incremented counter. *)
Definition reRegistered (texts : list string) (start : N * gmap N string)
    : N * gmap N string :=
  foldl (fun st text => (uint_incr st.1, <[uint_incr st.1 := text]> st.2)) start texts.

(** ** A sample instantiation *)

(** A socket that records what it is given, handlers that do nothing beyond
    being called, XEP-0198 frames, and a parser that knows a few documents. *)
Module Sample.

Record Socket : Type := mkSocket {
  connected : bool;
  accepting : bool;
  wire : list string;
  flushes : nat
}.

#[export] Instance socketOps : SocketOps Socket := {|
  sock_isConnected s := connected s;
  sock_sendTextMessage text s :=
    (accepting s,
     if accepting s
     then {| connected := connected s; accepting := true;
             wire := wire s ++ [text]; flushes := flushes s |}
     else s);
  sock_flush s :=
    {| connected := connected s; accepting := accepting s;
       wire := wire s; flushes := S (flushes s) |};
  sock_disconnectFromHost s :=
    {| connected := false; accepting := accepting s;
       wire := wire s; flushes := flushes s |};
  sock_peerAddress _ := "127.0.0.1";
  sock_peerPort _ := "5222";
  sock_errorString _ := "Connection refused"
|}.

Definition online : Socket :=
  {| connected := true; accepting := true; wire := []; flushes := 0 |}.

Definition offline : Socket :=
  {| connected := false; accepting := true; wire := []; flushes := 0 |}.

Definition ns_stream_management : string := "urn:xmpp:sm:3".

Fixpoint digits (acc : N) (s : string) : N :=
  match s with
  | EmptyString => acc
  | String c s' => digits (10 * acc + (N_of_ascii c - 48)) s'
  end.

#[export] Instance frames : StreamManagementFrames := {|
  isStreamManagementAck e :=
    String.eqb (tagName e) "a" && String.eqb (namespaceURI e) ns_stream_management;
  isStreamManagementReq e :=
    String.eqb (tagName e) "r" && String.eqb (namespaceURI e) ns_stream_management;
  ack_seqNo e := digits 0 (attribute "h" e) mod UINT_MODULUS;
  ack_toXml h := "<a xmlns='urn:xmpp:sm:3' h='" +:+ pretty h +:+ "'/>";
  req_toXml := "<r xmlns='urn:xmpp:sm:3'/>"
|}.

#[export] Instance handlers : StreamHandlers Socket := {|
  handleStanza _ := ret tt;
  handleStream _ := ret tt
|}.

(** A trimming for texts in ASCII: tab, line feed, vertical tab, form feed,
    carriage return and space are the whitespace. *)
Definition isAsciiSpace (c : ascii) : bool :=
  let n := N_of_ascii c in
  (n =? 32) || ((9 <=? n) && (n <=? 13)).

Fixpoint dropSpaces (s : string) : string :=
  match s with
  | EmptyString => EmptyString
  | String c s' => if isAsciiSpace c then dropSpaces s' else s
  end.

Fixpoint revString (acc s : string) : string :=
  match s with
  | EmptyString => acc
  | String c s' => revString (String c acc) s'
  end.

#[export] Instance qstringOps : QStringOps := {|
  trimmed s := revString EmptyString (dropSpaces (revString EmptyString (dropSpaces s)))
|}.

Definition streamOpen : string := "<stream:stream xmlns='jabber:client'>".

Definition message : QDomElement := DomElem "message" "jabber:client" [] [].
Definition features : QDomElement := DomElem "stream:features" "http://etherx.jabber.org/streams" [] [].
Definition ack (h : string) : QDomElement := DomElem "a" ns_stream_management [("h", h)] [].

Definition root (children : list QDomElement) : QDomElement :=
  DomElem "stream:stream" "http://etherx.jabber.org/streams" [] children.

#[export] Instance xmlOps : XmlOps := {|
  setContent text :=
    if String.eqb text (streamOpen +:+ "<message/>" +:+ streamRootElementEnd)
    then Some (root [message])
    else if String.eqb text (streamOpen +:+ "<stream:features/>" +:+ streamRootElementEnd)
    then Some (root [features])
    else if String.eqb text (streamOpen +:+ "<a xmlns='urn:xmpp:sm:3' h='1'/>"
                                        +:+ streamRootElementEnd)
    then Some (root [ack "1"])
    else if String.eqb text (streamOpen +:+ streamRootElementEnd)
    then Some (root [])
    else None;
  startStreamRegex_match text :=
    if String.prefix streamOpen text then Some streamOpen else None
|}.

(** A stream on a socket. *)
Definition streamOn (s : Socket) : QXmppStream Socket :=
  exec (setSocket (Some s)) QXmppStream_new.

(** A stream with a given ledger and outgoing counter. *)
Definition streamWith (s : Socket) (enabled : bool) (ledger : gmap N string)
    (lastOut lastIn : N) : QXmppStream Socket :=
  {| d := {| dataBuffer := EmptyString; socket := Some s;
             streamStart := EmptyString;
             streamManagementEnabled := enabled;
             unacknowledgedStanzas := ledger;
             lastOutgoingSequenceNumber := lastOut;
             lastIncomingSequenceNumber := lastIn |};
     trace := [] |}.

(** A stream in the middle of a session: management on, one stanza
    unacknowledged, part of an element in the buffer. *)
Definition busy : QXmppStream Socket :=
  {| d := {| dataBuffer := "<mess"; socket := Some online;
             streamStart := streamOpen;
             streamManagementEnabled := true;
             unacknowledgedStanzas := {[1 := "<presence/>"]};
             lastOutgoingSequenceNumber := 1;
             lastIncomingSequenceNumber := 4 |};
     trace := [] |}.

Definition chat : QXmppStanza := {| toXml := "<message/>"; isXmppStanza := true |}.
Definition chat2 : QXmppStanza := {| toXml := "<iq/>"; isXmppStanza := true |}.
Definition nonza : QXmppStanza := {| toXml := "<starttls/>"; isXmppStanza := false |}.

Definition ledger357 : gmap N string :=
  <[3 := "<message/>"]> (<[5 := "<iq/>"]> (<[7 := "<presence/>"]> ∅)).

Definition request : QDomElement := DomElem "r" ns_stream_management [] [].

(** An open stream: the start of the stream captured, stream management
    on, two stanzas unacknowledged, nothing in the buffer. *)
Definition established : QXmppStream Socket :=
  {| d := {| dataBuffer := EmptyString; socket := Some online;
             streamStart := streamOpen;
             streamManagementEnabled := true;
             unacknowledgedStanzas := {[1 := "<presence/>"; 2 := "<iq/>"]};
             lastOutgoingSequenceNumber := 2;
             lastIncomingSequenceNumber := 4 |};
     trace := [] |}.

(** A stream whose outgoing counter has reached its last value. *)
Definition exhausted : QXmppStream Socket :=
  streamWith online true {[4294967295 := "<iq/>"]} 4294967295 0.

End Sample.

(** * Properties *)

Ltac run :=
  unfold exec, eval, when, bind, gets, modify, emit, ret; cbn.

Lemma sentTexts_app (a b : list Event) : sentTexts (a ++ b) = sentTexts a ++ sentTexts b.
Proof.
  induction a as [|e a IH]; [reflexivity|].
  destruct e as [[] t| | | | |]; cbn; rewrite IH; reflexivity.
Qed.

Lemma wireTexts_app (a b : list Event) : wireTexts (a ++ b) = wireTexts a ++ wireTexts b.
Proof.
  induction a as [|e a IH]; [reflexivity|].
  destruct e; cbn; rewrite IH; reflexivity.
Qed.

Lemma dispatched_app (a b : list Event) : dispatched (a ++ b) = dispatched a ++ dispatched b.
Proof.
  induction a as [|e a IH]; [reflexivity|].
  destruct e; cbn; rewrite IH; reflexivity.
Qed.

Lemma uint_incr_lt (n : N) : uint_incr n < UINT_MODULUS.
Proof. unfold uint_incr. apply N.mod_lt. discriminate. Qed.

Lemma uint_incr_small (n : N) : n + 1 < UINT_MODULUS -> uint_incr n = n + 1.
Proof. intros Hn. unfold uint_incr. apply N.mod_small. exact Hn. Qed.

Lemma uint_incr_neq (n : N) : uint_incr n <> n.
Proof.
  intros E. pose proof (uint_incr_lt n) as Hlt. rewrite E in Hlt.
  destruct (decide (n + 1 < UINT_MODULUS)) as [Hs|Hs].
  - rewrite (uint_incr_small n Hs) in E. lia.
  - assert (n + 1 = UINT_MODULUS) as Hw by lia.
    unfold uint_incr in E. rewrite Hw, N.Div0.mod_same in E. subst n.
    discriminate Hw.
Qed.

(** *** Running computations *)

Section Running.

Context {Sock : Type}.

Lemma exec_bind {A B : Type} (m : M Sock A) (k : A -> M Sock B) (w : QXmppStream Sock) :
  exec (bind m k) w = exec (k (eval m w)) (exec m w).
Proof. unfold exec, eval, bind. destruct (m w). reflexivity. Qed.

Lemma eval_bind {A B : Type} (m : M Sock A) (k : A -> M Sock B) (w : QXmppStream Sock) :
  eval (bind m k) w = eval (k (eval m w)) (exec m w).
Proof. unfold exec, eval, bind. destruct (m w). reflexivity. Qed.

Lemma exec_ret {A : Type} (a : A) (w : QXmppStream Sock) : exec (ret a) w = w.
Proof. reflexivity. Qed.

Lemma eval_ret {A : Type} (a : A) (w : QXmppStream Sock) : eval (ret a) w = a.
Proof. reflexivity. Qed.

Lemma exec_gets {A : Type} (f : QXmppStreamPrivate Sock -> A) (w : QXmppStream Sock) :
  exec (gets f) w = w.
Proof. reflexivity. Qed.

Lemma eval_gets {A : Type} (f : QXmppStreamPrivate Sock -> A) (w : QXmppStream Sock) :
  eval (gets f) w = f (d w).
Proof. reflexivity. Qed.

Lemma exec_modify (f : QXmppStreamPrivate Sock -> QXmppStreamPrivate Sock)
    (w : QXmppStream Sock) :
  exec (modify f) w = {| d := f (d w); trace := trace w |}.
Proof. reflexivity. Qed.

Lemma exec_emit (e : Event) (w : QXmppStream Sock) :
  exec (emit e) w = {| d := d w; trace := trace w ++ [e] |}.
Proof. reflexivity. Qed.

Lemma run_pair {A : Type} (m : M Sock A) (w : QXmppStream Sock) :
  m w = (eval m w, exec m w).
Proof. unfold eval, exec. destruct (m w). reflexivity. Qed.

Lemma bind_modify {B : Type} (f : QXmppStreamPrivate Sock -> QXmppStreamPrivate Sock)
    (k : unit -> M Sock B) (w : QXmppStream Sock) :
  bind (modify f) k w = k tt {| d := f (d w); trace := trace w |}.
Proof. reflexivity. Qed.

Lemma bind_gets {A B : Type} (f : QXmppStreamPrivate Sock -> A)
    (k : A -> M Sock B) (w : QXmppStream Sock) :
  bind (gets f) k w = k (f (d w)) w.
Proof. reflexivity. Qed.

Lemma bind_emit {B : Type} (e : Event) (k : unit -> M Sock B) (w : QXmppStream Sock) :
  bind (emit e) k w = k tt {| d := d w; trace := trace w ++ [e] |}.
Proof. reflexivity. Qed.

End Running.

Section StreamFacts.

Context {Sock : Type} `{!SocketOps Sock} `{!XmlOps} `{!QStringOps}
        `{!StreamManagementFrames} `{!StreamHandlers Sock}.

Implicit Types (w : QXmppStream Sock) (text : string).

(** *** sendData *)

Lemma sendData_sans_socket text w :
  sans_socket (d (exec (sendData text) w)) = sans_socket (d w).
Proof.
  unfold sendData, logSent. run.
  destruct (socket (d w)) as [sk|]; [|reflexivity].
  destruct (sock_isConnected sk); [|reflexivity]. cbn.
  destruct (sock_sendTextMessage text sk). reflexivity.
Qed.

Lemma sendData_sentTexts text w :
  sentTexts (trace (exec (sendData text) w)) = sentTexts (trace w) ++ [text].
Proof.
  unfold sendData, logSent. run.
  destruct (socket (d w)) as [sk|]; cbn; [|apply sentTexts_app].
  destruct (sock_isConnected sk); cbn; [|apply sentTexts_app].
  destruct (sock_sendTextMessage text sk). cbn.
  rewrite !sentTexts_app. cbn. rewrite app_nil_r. reflexivity.
Qed.

Lemma sendData_not_connected text w :
  eval isConnected w = false ->
  sendData text w = (false, {| d := d w; trace := trace w ++ [Logged SentMessage text] |}).
Proof.
  unfold sendData, isConnected, logSent. run.
  destruct (socket (d w)) as [sk|]; [|reflexivity].
  intros ->. reflexivity.
Qed.

(** The fields of [sans_socket], one by one. *)
Lemma sans_socket_fields (p q : QXmppStreamPrivate Sock) :
  sans_socket p = sans_socket q ->
  dataBuffer p = dataBuffer q /\ streamStart p = streamStart q /\
  streamManagementEnabled p = streamManagementEnabled q /\
  unacknowledgedStanzas p = unacknowledgedStanzas q /\
  lastOutgoingSequenceNumber p = lastOutgoingSequenceNumber q /\
  lastIncomingSequenceNumber p = lastIncomingSequenceNumber q.
Proof. unfold sans_socket. intros E. injection E. auto 10. Qed.

Lemma sendAcknowledgementRequest_sans_socket w :
  sans_socket (d (exec sendAcknowledgementRequest w)) = sans_socket (d w).
Proof.
  unfold sendAcknowledgementRequest. rewrite exec_bind, eval_gets, exec_gets.
  destruct (streamManagementEnabled (d w)); cbn [negb]; [|reflexivity].
  rewrite exec_bind, exec_ret. apply sendData_sans_socket.
Qed.

Lemma sendAcknowledgementRequest_sentTexts w :
  sentTexts (trace (exec sendAcknowledgementRequest w)) =
  sentTexts (trace w) ++ (if streamManagementEnabled (d w) then [req_toXml] else []).
Proof.
  unfold sendAcknowledgementRequest. rewrite exec_bind, eval_gets, exec_gets.
  destruct (streamManagementEnabled (d w)); cbn [negb].
  - rewrite exec_bind, exec_ret. apply sendData_sentTexts.
  - rewrite exec_ret. symmetry. apply app_nil_r.
Qed.

End StreamFacts.

(** ** Connection events *)

Section Lifecycle.

Context {Sock : Type} `{!SocketOps Sock} `{!XmlOps} `{!QStringOps}
        `{!StreamManagementFrames} `{!StreamHandlers Sock}.

Implicit Types (w : QXmppStream Sock) (text : string).

(** What [handleStart] makes of the private data. *)
Lemma handleStart_exec w :
  exec handleStart w =
  {| d := {| dataBuffer := EmptyString;
             socket := socket (d w);
             streamStart := EmptyString;
             streamManagementEnabled := false;
             unacknowledgedStanzas := unacknowledgedStanzas (d w);
             lastOutgoingSequenceNumber := lastOutgoingSequenceNumber (d w);
             lastIncomingSequenceNumber := lastIncomingSequenceNumber (d w) |};
     trace := trace w |}.
Proof. reflexivity. Qed.

(** C9. On each (re)connect event -- the socket connected, or encryption
    started -- [handleStart] runs: the incoming buffer and the captured start
    of the stream are emptied and stream management is switched off, while
    the ledger of unacknowledged stanzas and both sequence counters (and the
    socket) stay as they were.  The connected slot reads the peer of the
    socket for its log line, so it has a result only when there is one. *)
Theorem C9_reconnect_resets_buffer_keeps_ledger w :
  let restarted :=
    {| dataBuffer := EmptyString;
       socket := socket (d w);
       streamStart := EmptyString;
       streamManagementEnabled := false;
       unacknowledgedStanzas := unacknowledgedStanzas (d w);
       lastOutgoingSequenceNumber := lastOutgoingSequenceNumber (d w);
       lastIncomingSequenceNumber := lastIncomingSequenceNumber (d w) |} in
  (forall sk, socket (d w) = Some sk ->
     exists w1, _q_socketConnected w = Some w1 /\ d w1 = restarted) /\
  d (exec _q_socketEncrypted w) = restarted /\
  d (exec handleStart w) = restarted.
Proof.
  intros restarted. split; [|split].
  - intros sk Hsk. unfold _q_socketConnected. rewrite Hsk. eexists. split; [reflexivity|].
    unfold info. rewrite exec_bind, handleStart_exec. reflexivity.
  - unfold _q_socketEncrypted, debug. rewrite exec_bind, handleStart_exec. reflexivity.
  - rewrite handleStart_exec. reflexivity.
Qed.

End Lifecycle.

(** ** Sending *)

Section SendingFacts.

Context {Sock : Type} `{!SocketOps Sock} `{!StreamManagementFrames}.

Implicit Types (w : QXmppStream Sock) (text : string) (p : QXmppStanza).

Lemma registerUnacknowledged_exec text w :
  exec (registerUnacknowledged text) w =
  {| d := set_unacknowledgedStanzas
            (<[uint_incr (lastOutgoingSequenceNumber (d w)) := text]>
               (unacknowledgedStanzas (d w)))
            (set_lastOutgoingSequenceNumber
               (uint_incr (lastOutgoingSequenceNumber (d w))) (d w));
     trace := trace w |}.
Proof. reflexivity. Qed.

(** [sendPacket], step by step: register, send, ask for an acknowledgement. *)
Lemma sendPacket_run p w :
  let w1 := exec (when (isXmppStanza p && streamManagementEnabled (d w))
                       (registerUnacknowledged (toXml p))) w in
  let w2 := exec (sendData (toXml p)) w1 in
  sendPacket p w =
  (eval (sendData (toXml p)) w1,
   exec (when (isXmppStanza p) sendAcknowledgementRequest) w2).
Proof.
  cbn zeta. rewrite (run_pair (sendPacket p) w). unfold sendPacket. cbn zeta.
  repeat (rewrite ?eval_bind, ?exec_bind, ?eval_gets, ?exec_gets, ?eval_ret, ?exec_ret).
  reflexivity.
Qed.

Lemma when_sendAcknowledgementRequest_sans_socket (b : bool) w :
  sans_socket (d (exec (when b sendAcknowledgementRequest) w)) = sans_socket (d w).
Proof. destruct b; [apply sendAcknowledgementRequest_sans_socket|reflexivity]. Qed.

Lemma sendPacket_sans_socket p w :
  sans_socket (d (exec (sendPacket p) w)) =
  sans_socket (d (exec (when (isXmppStanza p && streamManagementEnabled (d w))
                             (registerUnacknowledged (toXml p))) w)).
Proof.
  unfold exec at 1. rewrite sendPacket_run. cbn [snd].
  rewrite when_sendAcknowledgementRequest_sans_socket.
  apply sendData_sans_socket.
Qed.

(** A packet that is not an XMPP stanza, or any packet while stream
    management is off, leaves counters and ledger alone. *)
Lemma sendPacket_unregistered p w :
  isXmppStanza p && streamManagementEnabled (d w) = false ->
  sans_socket (d (exec (sendPacket p) w)) = sans_socket (d w).
Proof. intros E. rewrite sendPacket_sans_socket, E. reflexivity. Qed.

Lemma sendPacket_registered p w :
  isXmppStanza p = true -> streamManagementEnabled (d w) = true ->
  sans_socket (d (exec (sendPacket p) w)) =
  sans_socket
    (set_unacknowledgedStanzas
       (<[uint_incr (lastOutgoingSequenceNumber (d w)) := toXml p]>
          (unacknowledgedStanzas (d w)))
       (set_lastOutgoingSequenceNumber
          (uint_incr (lastOutgoingSequenceNumber (d w))) (d w))).
Proof.
  intros Hp Hen. rewrite sendPacket_sans_socket, Hp, Hen. cbn [andb when].
  rewrite registerUnacknowledged_exec. reflexivity.
Qed.


(** The numbers given to the stanzas of a run, while the counter does not
    wrap around. *)
Lemma assignedSequenceNumbers_run (packets : list QXmppStanza) w :
  streamManagementEnabled (d w) = true ->
  lastOutgoingSequenceNumber (d w)
    + N.of_nat (length (List.filter isXmppStanza packets)) < UINT_MODULUS ->
  assignedSequenceNumbers packets w =
  map (fun i => lastOutgoingSequenceNumber (d w) + N.of_nat i)
      (seq 1 (length (List.filter isXmppStanza packets))).
Proof.
  revert w. induction packets as [|p ps IH]; intros w Hen Hlt; [reflexivity|].
  cbn [assignedSequenceNumbers List.filter] in *.
  destruct (isXmppStanza p) eqn:Hp.
  - pose proof (sendPacket_registered p w Hp Hen) as E.
    apply sans_socket_fields in E. cbn in E. destruct E as (_ & _ & Hen' & _ & Hout & _).
    rewrite Hen in Hen'. cbn [length] in *.
    assert (uint_incr (lastOutgoingSequenceNumber (d w))
            = lastOutgoingSequenceNumber (d w) + 1) as Hs
      by (apply uint_incr_small; lia).
    rewrite IH; [|exact Hen'|rewrite Hout, Hs; lia].
    rewrite Hout, Hs. cbn [seq map]. f_equal.
    rewrite <- (seq_shift _ 1), map_map. apply map_ext. intros i. lia.
  - pose proof (sendPacket_unregistered p w) as E. rewrite Hp in E.
    specialize (E eq_refl). apply sans_socket_fields in E.
    destruct E as (_ & _ & Hen' & _ & Hout & _).
    rewrite IH; [|congruence|rewrite Hout; exact Hlt].
    rewrite Hout. reflexivity.
Qed.

(** The ledger after a run: each stanza entered under its number. *)
Lemma sendPackets_ledger (packets : list QXmppStanza) w :
  streamManagementEnabled (d w) = true ->
  unacknowledgedStanzas (d (sendPackets packets w)) =
  foldl (fun m kv => <[kv.1 := kv.2]> m) (unacknowledgedStanzas (d w))
        (zip (assignedSequenceNumbers packets w)
             (map toXml (List.filter isXmppStanza packets))).
Proof.
  revert w. induction packets as [|p ps IH]; intros w Hen; [reflexivity|].
  cbn [assignedSequenceNumbers List.filter sendPackets].
  destruct (isXmppStanza p) eqn:Hp.
  - pose proof (sendPacket_registered p w Hp Hen) as E.
    apply sans_socket_fields in E. cbn in E. destruct E as (_ & _ & Hen' & Hm & Hout & _).
    rewrite IH by congruence. cbn [map zip zip_with foldl fst snd].
    rewrite Hm, Hout. reflexivity.
  - pose proof (sendPacket_unregistered p w) as E. rewrite Hp in E.
    specialize (E eq_refl). apply sans_socket_fields in E.
    destruct E as (_ & _ & Hen' & Hm & _).
    rewrite IH by congruence. rewrite Hm. reflexivity.
Qed.


End SendingFacts.

Section SendingClaims.

Context {Sock : Type} `{!SocketOps Sock} `{!StreamManagementFrames}.

Implicit Types (w : QXmppStream Sock) (text : string) (p : QXmppStanza).

Lemma registerUnacknowledged_isConnected text w :
  eval isConnected (exec (registerUnacknowledged text) w) = eval isConnected w.
Proof. reflexivity. Qed.

Lemma sendData_connected text w sk :
  socket (d w) = Some sk -> sock_isConnected sk = true ->
  eval (sendData text) w = (sock_sendTextMessage text sk).1.
Proof.
  intros Hsk Hc. unfold sendData, logSent.
  rewrite eval_bind, exec_emit, eval_bind, eval_gets, exec_gets. cbn [d].
  rewrite Hsk, Hc. cbn [negb].
  destruct (sock_sendTextMessage text sk) as [ok sk'].
  rewrite !eval_bind, eval_ret. reflexivity.
Qed.

(** C3. A send of an XMPP stanza while stream management is on enters the
    serialized text in the ledger under the freshly incremented sequence
    number, and only then hands the text to [sendData]; a request for an
    acknowledgement follows.  The value returned is the one of [sendData]:
    [false] when the stream is not connected, and what the socket answers
    otherwise.  Whatever is returned, the entry is in the ledger afterwards. *)
Theorem C3_registered_before_sent_and_kept_on_failure w p :
  streamManagementEnabled (d w) = true ->
  isXmppStanza p = true ->
  let seqNo := uint_incr (lastOutgoingSequenceNumber (d w)) in
  let registered :=
    {| d := set_unacknowledgedStanzas
              (<[seqNo := toXml p]> (unacknowledgedStanzas (d w)))
              (set_lastOutgoingSequenceNumber seqNo (d w));
       trace := trace w |} in
  sendPacket p w =
    (eval (sendData (toXml p)) registered,
     exec sendAcknowledgementRequest (exec (sendData (toXml p)) registered)) /\
  unacknowledgedStanzas (d (exec (sendPacket p) w)) =
    <[seqNo := toXml p]> (unacknowledgedStanzas (d w)) /\
  unacknowledgedStanzas (d (exec (sendPacket p) w)) !! seqNo = Some (toXml p) /\
  lastOutgoingSequenceNumber (d (exec (sendPacket p) w)) = seqNo /\
  (eval isConnected w = false -> eval (sendPacket p) w = false) /\
  (forall sk, socket (d w) = Some sk -> sock_isConnected sk = true ->
              eval (sendPacket p) w = (sock_sendTextMessage (toXml p) sk).1).
Proof.
  intros Hen Hp seqNo registered.
  pose proof (sendPacket_run p w) as Hrun. cbn zeta in Hrun.
  rewrite Hp, Hen in Hrun. cbn [andb when] in Hrun.
  rewrite registerUnacknowledged_exec in Hrun. fold seqNo in Hrun. fold registered in Hrun.
  pose proof (sendPacket_registered p w Hp Hen) as E.
  apply sans_socket_fields in E. cbn in E. destruct E as (_ & _ & _ & Hm & Hout & _).
  split; [exact Hrun|]. split; [exact Hm|]. split; [|split; [exact Hout|split]].
  - rewrite Hm. apply lookup_insert_eq.
  - intros Hc. unfold eval at 1. rewrite Hrun. cbn [fst].
    unfold eval. rewrite sendData_not_connected; [reflexivity|exact Hc].
  - intros sk Hsk Hc. unfold eval at 1. rewrite Hrun. cbn [fst].
    apply sendData_connected; [exact Hsk|exact Hc].
Qed.


End SendingClaims.

(** ** Acknowledgements *)

Section QMapFacts.

Lemma QMap_items_Permutation (m : gmap N string) : QMap_items m ≡ₚ map_to_list m.
Proof. unfold QMap_items. apply merge_sort_Permutation. Qed.

Lemma QMap_items_elem_of (m : gmap N string) (k : N) (v : string) :
  (k, v) ∈ QMap_items m <-> m !! k = Some v.
Proof. rewrite QMap_items_Permutation. apply elem_of_map_to_list. Qed.

Lemma QMap_items_keys (m : gmap N string) (k : N) :
  k ∈ (QMap_items m).*1 <-> is_Some (m !! k).
Proof.
  rewrite list_elem_of_fmap. split.
  - intros ([k' v] & -> & Hin). apply QMap_items_elem_of in Hin. eauto.
  - intros [v Hv]. exists (k, v). split; [reflexivity|]. apply QMap_items_elem_of, Hv.
Qed.

#[local] Instance key_le_trans : Transitive key_le.
Proof. intros a b c. unfold key_le. lia. Qed.

#[local] Instance key_le_total : Total key_le.
Proof. intros a b. unfold key_le. lia. Qed.

(** The entries come by ascending key. *)
Lemma QMap_items_ascending (m : gmap N string) : StronglySorted key_le (QMap_items m).
Proof. unfold QMap_items. apply StronglySorted_merge_sort; apply _. Qed.

Lemma QMap_empty_spec (m : gmap N string) : QMap_empty m = true <-> m = ∅.
Proof.
  unfold QMap_empty. split.
  - destruct (map_to_list m) eqn:E; [|discriminate].
    intros _. apply map_to_list_empty_iff, E.
  - intros ->. rewrite map_to_list_empty. reflexivity.
Qed.

Lemma foldl_erase_lookup (sequenceNumber : N) (l : list (N * string))
    (m : gmap N string) (k : N) :
  foldl (erase_acknowledged sequenceNumber) m l !! k =
  if decide (k <= sequenceNumber /\ k ∈ l.*1) then None else m !! k.
Proof.
  revert m. induction l as [|[k' v] l IH]; intros m; cbn [foldl].
  - case_decide as H; [|reflexivity]. destruct H as [_ H]. inversion H.
  - rewrite IH. unfold erase_acknowledged. rewrite fmap_cons. cbn [fst].
    destruct (N.leb_spec k' sequenceNumber) as [Hle|Hgt].
    + destruct (decide (k = k')) as [->|Hne];
        [rewrite lookup_delete_eq|rewrite lookup_delete_ne by congruence];
        repeat case_decide; try reflexivity; exfalso; set_solver.
    + repeat case_decide; try reflexivity; exfalso; set_solver by lia.
Qed.

(** Erasing along the iterator keeps exactly the entries above the number. *)
Lemma erase_acknowledged_filter (sequenceNumber : N) (m : gmap N string) :
  foldl (erase_acknowledged sequenceNumber) m (QMap_items m) =
  filter (fun kv => sequenceNumber < kv.1) m.
Proof.
  apply map_eq. intros k. rewrite foldl_erase_lookup.
  destruct (m !! k) as [v|] eqn:Hk.
  - case_decide as H.
    + symmetry. apply map_lookup_filter_None. right. intros v' _. cbn. lia.
    + symmetry. apply map_lookup_filter_Some. split; [exact Hk|]. cbn.
      destruct (decide (sequenceNumber < k)) as [|Hn]; [assumption|].
      exfalso. apply H. split; [lia|]. apply QMap_items_keys. eauto.
  - case_decide; symmetry; apply map_lookup_filter_None; left; exact Hk.
Qed.

End QMapFacts.

Section ManagementClaims.

Context {Sock : Type} `{!SocketOps Sock} `{!XmlOps} `{!QStringOps}
        `{!StreamManagementFrames} `{!StreamHandlers Sock}.

Implicit Types (w : QXmppStream Sock) (text : string).

Lemma stream_eta w : {| d := d w; trace := trace w |} = w.
Proof. destruct w. reflexivity. Qed.

Lemma set_unacknowledgedStanzas_same (p : QXmppStreamPrivate Sock) :
  set_unacknowledgedStanzas (unacknowledgedStanzas p) p = p.
Proof. destruct p. reflexivity. Qed.

Lemma setAcknowledgedSequenceNumber_exec (sequenceNumber : N) w :
  exec (setAcknowledgedSequenceNumber sequenceNumber) w =
  {| d := set_unacknowledgedStanzas
            (filter (fun kv => sequenceNumber < kv.1) (unacknowledgedStanzas (d w))) (d w);
     trace := trace w |}.
Proof.
  unfold setAcknowledgedSequenceNumber. rewrite exec_modify.
  rewrite erase_acknowledged_filter. reflexivity.
Qed.

(** C2, as the code has it.  [setAcknowledgedSequenceNumber] leaves in the
    ledger exactly the entries whose sequence number is greater than the
    acknowledged one and touches nothing else -- whether or not stream
    management is enabled: the function does not look at the flag.  The
    number 0 therefore removes the entry numbered 0 and no other; it leaves
    the stream as it is exactly when the ledger has no entry under 0.  The
    flag is looked at by [handleAcknowledgement]: an acknowledgement frame
    received while stream management is on does what
    [setAcknowledgedSequenceNumber] does with the number it carries, and one
    received while stream management is off changes nothing. *)
Theorem C2_acknowledge_filters_the_ledger w (sequenceNumber : N) (element : QDomElement) :
  exec (setAcknowledgedSequenceNumber sequenceNumber) w =
    {| d := set_unacknowledgedStanzas
              (filter (fun kv => sequenceNumber < kv.1) (unacknowledgedStanzas (d w))) (d w);
       trace := trace w |} /\
  (forall k, unacknowledgedStanzas (d (exec (setAcknowledgedSequenceNumber sequenceNumber) w)) !! k
             = if decide (k <= sequenceNumber) then None else unacknowledgedStanzas (d w) !! k) /\
  unacknowledgedStanzas (d (exec (setAcknowledgedSequenceNumber 0) w))
    = delete 0 (unacknowledgedStanzas (d w)) /\
  (exec (setAcknowledgedSequenceNumber 0) w = w
     <-> unacknowledgedStanzas (d w) !! 0 = None) /\
  (streamManagementEnabled (d w) = true ->
     exec (handleAcknowledgement element) w =
     exec (setAcknowledgedSequenceNumber (ack_seqNo element)) w) /\
  (streamManagementEnabled (d w) = false ->
     exec (handleAcknowledgement element) w = w).
Proof.
  assert (forall n k,
            unacknowledgedStanzas (d (exec (setAcknowledgedSequenceNumber n) w)) !! k
            = if decide (k <= n) then None else unacknowledgedStanzas (d w) !! k) as Hlookup.
  { intros n k. rewrite setAcknowledgedSequenceNumber_exec.
    cbn [d unacknowledgedStanzas set_unacknowledgedStanzas].
    destruct (unacknowledgedStanzas (d w) !! k) as [v|] eqn:Hk.
    - case_decide as Hd.
      + apply map_lookup_filter_None. right. intros v' _. cbn. lia.
      + apply map_lookup_filter_Some. split; [exact Hk|cbn; lia].
    - case_decide; apply map_lookup_filter_None; left; exact Hk. }
  assert (unacknowledgedStanzas (d (exec (setAcknowledgedSequenceNumber 0) w))
          = delete 0 (unacknowledgedStanzas (d w))) as Hzero.
  { apply map_eq. intros k. rewrite Hlookup.
    destruct (decide (k = 0)) as [->|Hne].
    - rewrite lookup_delete_eq. reflexivity.
    - rewrite lookup_delete_ne by congruence. case_decide; [lia|reflexivity]. }
  split; [apply setAcknowledgedSequenceNumber_exec|].
  split; [apply Hlookup|]. split; [exact Hzero|]. split; [|split].
  - split.
    + intros E. rewrite E in Hzero. rewrite Hzero. apply lookup_delete_eq.
    + intros Hz. rewrite setAcknowledgedSequenceNumber_exec.
      assert (filter (fun kv : N * string => 0 < kv.1) (unacknowledgedStanzas (d w))
              = unacknowledgedStanzas (d w)) as ->.
      { apply map_filter_id. intros k v Hk. cbn.
        destruct (decide (k = 0)) as [->|]; [congruence|lia]. }
      rewrite set_unacknowledgedStanzas_same. apply stream_eta.
  - intros Hen. unfold handleAcknowledgement.
    rewrite exec_bind, eval_gets, exec_gets, Hen. reflexivity.
  - intros Hen. unfold handleAcknowledgement.
    rewrite exec_bind, eval_gets, exec_gets, Hen. reflexivity.
Qed.

(** C1, as the code has it.  For a child element that is neither an
    acknowledgement nor a request, the loop calls [handleStanza] and then
    increments [lastIncomingSequenceNumber] exactly when the tag name is
    message, presence or iq.  Whether stream management is enabled plays no
    part: the flag is not looked at. *)
Theorem C1_incoming_counter_follows_tag_name w (nodeRecv : QDomElement) :
  isStreamManagementAck nodeRecv = false ->
  isStreamManagementReq nodeRecv = false ->
  let handled := exec (call_handleStanza nodeRecv) w in
  let after := exec (processStanza nodeRecv) w in
  (isCountedStanza nodeRecv = true ->
     after = {| d := set_lastIncomingSequenceNumber
                       (uint_incr (lastIncomingSequenceNumber (d handled))) (d handled);
                trace := trace handled |}) /\
  (isCountedStanza nodeRecv = false -> after = handled) /\
  (lastIncomingSequenceNumber (d after) <> lastIncomingSequenceNumber (d handled)
     <-> isCountedStanza nodeRecv = true).
Proof.
  intros Hack Hreq handled after.
  assert (after = exec (when (isCountedStanza nodeRecv)
                         (modify (fun p => set_lastIncomingSequenceNumber
                                   (uint_incr (lastIncomingSequenceNumber p)) p))) handled) as E.
  { unfold after, processStanza. rewrite Hack, Hreq, exec_bind. reflexivity. }
  destruct (isCountedStanza nodeRecv); cbn [when] in E.
  - rewrite exec_modify in E. split; [intros _; exact E|]. split; [discriminate|].
    split; [reflexivity|]. intros _. rewrite E. cbn. apply uint_incr_neq.
  - rewrite exec_ret in E. split; [discriminate|]. split; [intros _; exact E|].
    split; [|discriminate]. intros Hne. exfalso. apply Hne. rewrite E. reflexivity.
Qed.

End ManagementClaims.

(** ** Enabling stream management *)

Section EnableFacts.

Context {Sock : Type} `{!SocketOps Sock} `{!StreamManagementFrames}.

Implicit Types (w : QXmppStream Sock) (text : string) (items : list (N * string)).

Lemma forEach_sendData_sans_socket items w :
  sans_socket (d (exec (forEach items (fun it => (_ <- sendData it.2 ;; ret tt)%stream)) w))
  = sans_socket (d w).
Proof.
  revert w. induction items as [|it items IH]; intros w; [reflexivity|].
  cbn [forEach]. rewrite exec_bind, IH, exec_bind, exec_ret.
  apply sendData_sans_socket.
Qed.

Lemma forEach_sendData_sentTexts items w :
  sentTexts (trace (exec (forEach items (fun it => (_ <- sendData it.2 ;; ret tt)%stream)) w))
  = sentTexts (trace w) ++ map snd items.
Proof.
  revert w. induction items as [|it items IH]; intros w.
  - cbn. rewrite app_nil_r. reflexivity.
  - cbn [forEach map]. rewrite exec_bind, IH, exec_bind, exec_ret, sendData_sentTexts.
    rewrite <- app_assoc. reflexivity.
Qed.

Lemma forEach_register_send items w :
  let w' := exec (forEach items
                    (fun it => (registerUnacknowledged it.2 ;;;
                                _ <- sendData it.2 ;; ret tt)%stream)) w in
  (lastOutgoingSequenceNumber (d w'), unacknowledgedStanzas (d w'))
    = reRegistered (map snd items)
        (lastOutgoingSequenceNumber (d w), unacknowledgedStanzas (d w)) /\
  dataBuffer (d w') = dataBuffer (d w) /\
  streamStart (d w') = streamStart (d w) /\
  streamManagementEnabled (d w') = streamManagementEnabled (d w) /\
  lastIncomingSequenceNumber (d w') = lastIncomingSequenceNumber (d w) /\
  sentTexts (trace w') = sentTexts (trace w) ++ map snd items.
Proof.
  revert w. induction items as [|it items IH]; intros w.
  - cbn. rewrite app_nil_r. auto 10.
  - cbn [forEach map]. cbn zeta. rewrite exec_bind.
    set (w1 := exec (_ ;;; _)%stream w).
    assert (sans_socket (d w1) =
            sans_socket (d (exec (registerUnacknowledged it.2) w))
            /\ sentTexts (trace w1) = sentTexts (trace w) ++ [it.2]) as [E Et].
    { unfold w1. rewrite !exec_bind, exec_ret. split.
      - apply sendData_sans_socket.
      - rewrite sendData_sentTexts. reflexivity. }
    apply sans_socket_fields in E. rewrite registerUnacknowledged_exec in E. cbn in E.
    destruct E as (Eb & Es & Een & Em & Eout & Ein).
    specialize (IH w1). cbn zeta in IH.
    destruct IH as (IH1 & IH2 & IH3 & IH4 & IH5 & IH6).
    rewrite IH1, IH2, IH3, IH4, IH5, IH6, Eb, Es, Een, Em, Eout, Ein, Et.
    rewrite <- app_assoc. unfold reRegistered. cbn. auto 10.
Qed.

Lemma enableStreamManagement_empty (resetSequenceNumber : bool) w :
  unacknowledgedStanzas (d w) = ∅ ->
  exec (enableStreamManagement resetSequenceNumber) w =
  {| d := {| dataBuffer := dataBuffer (d w);
             socket := socket (d w);
             streamStart := streamStart (d w);
             streamManagementEnabled := true;
             unacknowledgedStanzas := ∅;
             lastOutgoingSequenceNumber :=
               if resetSequenceNumber then 0 else lastOutgoingSequenceNumber (d w);
             lastIncomingSequenceNumber :=
               if resetSequenceNumber then 0 else lastIncomingSequenceNumber (d w) |};
     trace := trace w |}.
Proof.
  intros Hm. unfold enableStreamManagement. rewrite exec_bind, exec_modify.
  assert (QMap_empty (∅ : gmap N string) = true) as He
    by (apply QMap_empty_spec; reflexivity).
  destruct resetSequenceNumber.
  - rewrite !exec_bind, !exec_modify, eval_gets, exec_gets.
    cbn [d unacknowledgedStanzas set_streamManagementEnabled
         set_lastOutgoingSequenceNumber set_lastIncomingSequenceNumber].
    rewrite Hm, He. cbn [negb]. rewrite exec_ret.
    unfold set_lastIncomingSequenceNumber, set_lastOutgoingSequenceNumber,
      set_streamManagementEnabled. cbn. rewrite Hm. reflexivity.
  - rewrite exec_bind, eval_gets, exec_gets.
    cbn [d unacknowledgedStanzas set_streamManagementEnabled].
    rewrite Hm, He. cbn [negb]. rewrite exec_ret.
    unfold set_lastIncomingSequenceNumber, set_lastOutgoingSequenceNumber,
      set_streamManagementEnabled. cbn. rewrite Hm. reflexivity.
Qed.

Lemma enableStreamManagement_resend w :
  QMap_empty (unacknowledgedStanzas (d w)) = false ->
  let w' := exec (enableStreamManagement false) w in
  sans_socket (d w') = sans_socket (set_streamManagementEnabled true (d w)) /\
  sentTexts (trace w') =
    sentTexts (trace w) ++ map snd (QMap_items (unacknowledgedStanzas (d w))) ++ [req_toXml].
Proof.
  intros Hm w'. unfold w', enableStreamManagement.
  rewrite exec_bind, exec_modify, exec_bind, eval_gets, exec_gets. cbn [d unacknowledgedStanzas set_streamManagementEnabled].
  rewrite Hm. cbn [negb]. rewrite exec_bind. split.
  - rewrite sendAcknowledgementRequest_sans_socket, forEach_sendData_sans_socket.
    reflexivity.
  - rewrite sendAcknowledgementRequest_sentTexts, forEach_sendData_sentTexts.
    pose proof (forEach_sendData_sans_socket
                  (QMap_items (unacknowledgedStanzas (d w)))
                  {| d := set_streamManagementEnabled true (d w); trace := trace w |}) as E.
    apply sans_socket_fields in E. destruct E as (_ & _ & -> & _).
    cbn. rewrite <- app_assoc. reflexivity.
Qed.

Lemma enableStreamManagement_renumber w :
  QMap_empty (unacknowledgedStanzas (d w)) = false ->
  let w' := exec (enableStreamManagement true) w in
  (lastOutgoingSequenceNumber (d w'), unacknowledgedStanzas (d w'))
    = reRegistered (map snd (QMap_items (unacknowledgedStanzas (d w)))) (0, ∅) /\
  lastIncomingSequenceNumber (d w') = 0 /\
  streamManagementEnabled (d w') = true /\
  dataBuffer (d w') = dataBuffer (d w) /\
  streamStart (d w') = streamStart (d w) /\
  sentTexts (trace w') =
    sentTexts (trace w) ++ map snd (QMap_items (unacknowledgedStanzas (d w))) ++ [req_toXml].
Proof.
  intros Hm w'. unfold w', enableStreamManagement.
  rewrite exec_bind, exec_modify, !exec_bind, !exec_modify, eval_gets, exec_gets.
  cbn [d unacknowledgedStanzas set_streamManagementEnabled
       set_lastOutgoingSequenceNumber set_lastIncomingSequenceNumber].
  rewrite Hm. cbn [negb]. rewrite !exec_bind, exec_modify.
  match goal with |- context [exec (forEach ?items ?body) ?w0] =>
    pose proof (forEach_register_send items w0) as L;
    set (w1 := exec (forEach items body) w0) in * end.
  cbn zeta in L. cbn in L. destruct L as (L1 & L2 & L3 & L4 & L5 & L6).
  pose proof (sendAcknowledgementRequest_sans_socket w1) as E.
  apply sans_socket_fields in E. destruct E as (Eb & Es & Een & Em & Eout & Ein).
  rewrite Eb, Es, Een, Em, Eout, Ein, sendAcknowledgementRequest_sentTexts.
  rewrite L1, L2, L3, L4, L5, L6. cbn. rewrite <- app_assoc. auto 10.
Qed.

Lemma enableStreamManagement_flag (resetSequenceNumber : bool) w :
  streamManagementEnabled (d (exec (enableStreamManagement resetSequenceNumber) w)) = true.
Proof.
  destruct (QMap_empty (unacknowledgedStanzas (d w))) eqn:Hm.
  - apply QMap_empty_spec in Hm. rewrite enableStreamManagement_empty by exact Hm.
    reflexivity.
  - destruct resetSequenceNumber.
    + apply (enableStreamManagement_renumber w Hm).
    + destruct (enableStreamManagement_resend w Hm) as [E _].
      apply sans_socket_fields in E. destruct E as (_ & _ & -> & _). reflexivity.
Qed.

End EnableFacts.

Section EnableClaims.

Context {Sock : Type} `{!SocketOps Sock} `{!StreamManagementFrames}.

Implicit Types (w : QXmppStream Sock) (text : string).

Lemma QMap_items_357 (A B C : string) :
  QMap_items (<[3 := A]> (<[5 := B]> (<[7 := C]> ∅))) = [(3, A); (5, B); (7, C)].
Proof. vm_compute. reflexivity. Qed.

(** C5. On a ledger holding A, B, C under the numbers 3, 5, 7:
    enabling with a reset sets both counters to zero, empties the ledger and
    enters A, B, C again in this order, so that they end under 1, 2, 3 with
    the outgoing counter at 3 and the incoming one at 0; each text is given
    to [sendData] as it is entered and one request for an acknowledgement
    follows.  Enabling without a reset gives A, B, C to [sendData] in this
    order, then one request, and leaves ledger and counters as they were. *)
Theorem C5_enable_on_ledger_3_5_7 w (A B C : string) :
  unacknowledgedStanzas (d w) = <[3 := A]> (<[5 := B]> (<[7 := C]> ∅)) ->
  let reset := exec (enableStreamManagement true) w in
  let resumed := exec (enableStreamManagement false) w in
  reset =
    exec (forEach [(3, A); (5, B); (7, C)]
            (fun it => (registerUnacknowledged it.2 ;;;
                        _ <- sendData it.2 ;; ret tt)%stream) ;;;
          sendAcknowledgementRequest)%stream
         {| d := {| dataBuffer := dataBuffer (d w);
                    socket := socket (d w);
                    streamStart := streamStart (d w);
                    streamManagementEnabled := true;
                    unacknowledgedStanzas := ∅;
                    lastOutgoingSequenceNumber := 0;
                    lastIncomingSequenceNumber := 0 |};
            trace := trace w |} /\
  streamManagementEnabled (d reset) = true /\
  lastIncomingSequenceNumber (d reset) = 0 /\
  lastOutgoingSequenceNumber (d reset) = 3 /\
  unacknowledgedStanzas (d reset) = <[1 := A]> (<[2 := B]> (<[3 := C]> ∅)) /\
  sentTexts (trace reset) = sentTexts (trace w) ++ [A; B; C; req_toXml] /\
  streamManagementEnabled (d resumed) = true /\
  unacknowledgedStanzas (d resumed) = <[3 := A]> (<[5 := B]> (<[7 := C]> ∅)) /\
  lastOutgoingSequenceNumber (d resumed) = lastOutgoingSequenceNumber (d w) /\
  lastIncomingSequenceNumber (d resumed) = lastIncomingSequenceNumber (d w) /\
  sentTexts (trace resumed) = sentTexts (trace w) ++ [A; B; C; req_toXml].
Proof.
  intros Hm reset resumed.
  assert (QMap_empty (unacknowledgedStanzas (d w)) = false) as Hne.
  { rewrite Hm. vm_compute. reflexivity. }
  split.
  { unfold reset, enableStreamManagement.
    rewrite exec_bind, exec_modify, !exec_bind, !exec_modify, eval_gets, exec_gets.
    cbn [d unacknowledgedStanzas set_streamManagementEnabled
         set_lastOutgoingSequenceNumber set_lastIncomingSequenceNumber].
    rewrite Hne. cbn [negb]. rewrite exec_bind, exec_modify.
    rewrite Hm, QMap_items_357, !exec_bind. reflexivity. }
  destruct (enableStreamManagement_renumber w Hne) as (R1 & R2 & R3 & _ & _ & R6).
  destruct (enableStreamManagement_resend w Hne) as (S1 & S2).
  fold reset in R1, R2, R3, R6. fold resumed in S1, S2.
  rewrite Hm, QMap_items_357 in R1, R6, S2.
  apply sans_socket_fields in S1. cbn in S1. destruct S1 as (_ & _ & S3 & S4 & S5 & S6).
  assert (reRegistered [A; B; C] (0, ∅) = (3, <[1 := A]> (<[2 := B]> (<[3 := C]> ∅)))) as Hr.
  { vm_compute. reflexivity. }
  cbn [map snd] in R1. rewrite Hr in R1. injection R1 as R1a R1b.
  rewrite <- Hm. auto 15.
Qed.

(** C6. Enabling stream management on an empty ledger, with or without a
    reset, sends nothing and calls nothing: the flag is set, the counters are
    zeroed when a reset is asked for, and the ledger stays empty. *)
Theorem C6_enable_on_empty_ledger (resetSequenceNumber : bool) w :
  unacknowledgedStanzas (d w) = ∅ ->
  let w' := exec (enableStreamManagement resetSequenceNumber) w in
  streamManagementEnabled (d w') = true /\
  trace w' = trace w /\
  socket (d w') = socket (d w) /\
  unacknowledgedStanzas (d w') = ∅ /\
  dataBuffer (d w') = dataBuffer (d w) /\
  streamStart (d w') = streamStart (d w) /\
  lastOutgoingSequenceNumber (d w') =
    (if resetSequenceNumber then 0 else lastOutgoingSequenceNumber (d w)) /\
  lastIncomingSequenceNumber (d w') =
    (if resetSequenceNumber then 0 else lastIncomingSequenceNumber (d w)).
Proof.
  intros Hm w'. unfold w'. rewrite enableStreamManagement_empty by exact Hm.
  cbn. auto 10.
Qed.

End EnableClaims.

(** ** Disconnecting *)

Section DisconnectClaims.

Context {Sock : Type} `{!SocketOps Sock} `{!StreamManagementFrames}.

Implicit Types (w : QXmppStream Sock) (text : string) (p : QXmppStanza).

Lemma onSocket_sans_socket (ev : Event) (f : Sock -> Sock) w :
  sans_socket (d (exec (onSocket ev f) w)) = sans_socket (d w).
Proof.
  unfold onSocket. rewrite exec_bind, eval_gets, exec_gets.
  destruct (socket (d w)); reflexivity.
Qed.

Lemma onSocket_sentTexts (ev : Event) (f : Sock -> Sock) w :
  sentTexts [ev] = [] ->
  sentTexts (trace (exec (onSocket ev f) w)) = sentTexts (trace w).
Proof.
  intros Hev. unfold onSocket. rewrite exec_bind, eval_gets, exec_gets.
  destruct (socket (d w)); [|reflexivity].
  rewrite exec_bind, exec_emit, exec_modify. cbn [trace].
  rewrite sentTexts_app, Hev. apply app_nil_r.
Qed.

(** [disconnectFromHost] clears the flag first and then deals with the
    socket, which changes nothing else in the private data. *)
Lemma disconnectFromHost_sans_socket w :
  sans_socket (d (exec disconnectFromHost w))
  = sans_socket (set_streamManagementEnabled false (d w)).
Proof.
  unfold disconnectFromHost.
  rewrite exec_bind, exec_modify, exec_bind, eval_gets, exec_gets.
  cbn [d socket set_streamManagementEnabled].
  destruct (socket (d w)) as [sk|]; [|reflexivity].
  rewrite exec_bind, onSocket_sans_socket.
  destruct (sock_isConnected sk); [|reflexivity].
  rewrite exec_bind, onSocket_sans_socket. apply sendData_sans_socket.
Qed.

Lemma disconnectFromHost_sentTexts w :
  sentTexts (trace (exec disconnectFromHost w)) =
  sentTexts (trace w) ++ (if eval isConnected w then [streamRootElementEnd] else []).
Proof.
  unfold disconnectFromHost, isConnected.
  rewrite exec_bind, exec_modify, exec_bind, !eval_bind, !eval_gets, !exec_gets, eval_ret.
  cbn [d socket set_streamManagementEnabled].
  destruct (socket (d w)) as [sk|]; [|symmetry; apply app_nil_r].
  rewrite exec_bind, onSocket_sentTexts by reflexivity.
  destruct (sock_isConnected sk); [|symmetry; apply app_nil_r].
  rewrite exec_bind, onSocket_sentTexts by reflexivity.
  rewrite sendData_sentTexts. reflexivity.
Qed.

(** C10. [disconnectFromHost] switches stream management off before it
    does anything with the socket, and leaves the ledger and both counters
    as they were; the closing tag goes to [sendData] only when the stream is
    connected.  An XMPP stanza sent afterwards changes neither ledger nor
    outgoing counter.  Once [enableStreamManagement] has run again, a sent
    XMPP stanza is entered in the ledger under the next number. *)
Theorem C10_disconnect_switches_management_off w p (resetSequenceNumber : bool) :
  isXmppStanza p = true ->
  let closed := exec disconnectFromHost w in
  let sent := exec (sendPacket p) closed in
  let enabled := exec (enableStreamManagement resetSequenceNumber) closed in
  streamManagementEnabled (d closed) = false /\
  unacknowledgedStanzas (d closed) = unacknowledgedStanzas (d w) /\
  lastOutgoingSequenceNumber (d closed) = lastOutgoingSequenceNumber (d w) /\
  lastIncomingSequenceNumber (d closed) = lastIncomingSequenceNumber (d w) /\
  sentTexts (trace closed) =
    sentTexts (trace w) ++ (if eval isConnected w then [streamRootElementEnd] else []) /\
  unacknowledgedStanzas (d sent) = unacknowledgedStanzas (d w) /\
  lastOutgoingSequenceNumber (d sent) = lastOutgoingSequenceNumber (d w) /\
  unacknowledgedStanzas (d (exec (sendPacket p) enabled)) =
    <[uint_incr (lastOutgoingSequenceNumber (d enabled)) := toXml p]>
      (unacknowledgedStanzas (d enabled)).
Proof.
  intros Hp closed sent enabled.
  pose proof (disconnectFromHost_sans_socket w) as E.
  apply sans_socket_fields in E. cbn in E. fold closed in E.
  destruct E as (_ & _ & Een & Em & Eout & Ein).
  pose proof (sendPacket_unregistered p closed) as S.
  rewrite Een, Hp in S. specialize (S eq_refl). fold sent in S.
  apply sans_socket_fields in S. destruct S as (_ & _ & _ & Sm & Sout & _).
  pose proof (sendPacket_registered p enabled Hp
                (enableStreamManagement_flag resetSequenceNumber closed)) as R.
  apply sans_socket_fields in R. cbn in R. destruct R as (_ & _ & _ & Rm & _).
  repeat split; try congruence.
  apply disconnectFromHost_sentTexts.
Qed.

End DisconnectClaims.

(** ** Receiving *)

Section ReceiveClaims.

Context {Sock : Type} `{!SocketOps Sock} `{!XmlOps} `{!QStringOps}
        `{!StreamManagementFrames} `{!StreamHandlers Sock}.

Implicit Types (w : QXmppStream Sock) (text : string).

(** C7. When the buffer with the received text added is not empty and
    its trimmed text is empty -- it holds nothing but whitespace, as Qt
    counts it -- the whole of [handleTextMessageReceived] is: empty the
    buffer, call [handleStanza] once, with a null element.  The parser is not
    consulted, nothing is logged as received, and no other element is given
    to [handleStanza]. *)
Theorem C7_whitespace_is_a_ping w text :
  let buffer := dataBuffer (d w) +:+ text in
  isEmpty buffer = false ->
  isEmpty (trimmed buffer) = true ->
  let pinged :=
    {| d := set_dataBuffer EmptyString (d w);
       trace := trace w ++ [CalledHandleStanza DomNull] |} in
  handleTextMessageReceived text w = handleStanza DomNull pinged /\
  dataBuffer (d pinged) = EmptyString /\
  dispatched (trace pinged) = dispatched (trace w) ++ [DomNull] /\
  isWhitespacePing buffer = true.
Proof.
  intros buffer Hne Htr pinged. split; [|split; [|split]].
  - unfold handleTextMessageReceived.
    rewrite bind_modify, bind_gets. cbn [d dataBuffer set_dataBuffer].
    fold buffer. unfold isWhitespacePing. rewrite Hne, Htr. cbn [negb andb].
    unfold call_handleStanza. rewrite bind_modify, bind_emit. reflexivity.
  - reflexivity.
  - unfold pinged. cbn [trace]. apply dispatched_app.
  - unfold isWhitespacePing. rewrite Hne, Htr. reflexivity.
Qed.

(** C8. When the text is not a whitespace ping and the document built
    from the buffer does not parse, [handleTextMessageReceived] returns with
    the received text added to the buffer and nothing else changed: no
    captured start of the stream, no counter, no call, no log entry.  When
    the document parses, the text is logged as received and the buffer is
    emptied before anything is dispatched. *)
Theorem C8_failed_parse_keeps_the_buffer w text :
  let p := set_dataBuffer (dataBuffer (d w) +:+ text) (d w) in
  isWhitespacePing (dataBuffer p) = false ->
  (setContent (completeXml p) = None ->
     handleTextMessageReceived text w = (tt, {| d := p; trace := trace w |})) /\
  (forall documentElement,
     setContent (completeXml p) = Some documentElement ->
     handleTextMessageReceived text w =
       (match streamStartMatch p with
        | Some cap0 => modify (set_streamStart cap0) ;;; call_handleStream documentElement
        | None => ret tt
        end ;;;
        processStanzas (childElements documentElement) ;;;
        when (contains_endStreamRegex (dataBuffer p)) disconnectFromHost)%stream
       {| d := set_dataBuffer EmptyString p;
          trace := trace w ++ [Logged ReceivedMessage text] |}).
Proof.
  intros p Hping. split.
  - intros Hparse. unfold handleTextMessageReceived.
    rewrite bind_modify, bind_gets. cbn [d]. fold p. rewrite Hping.
    rewrite !bind_gets. cbn [d]. rewrite Hparse. reflexivity.
  - intros documentElement Hparse. unfold handleTextMessageReceived.
    rewrite bind_modify, bind_gets. cbn [d]. fold p. rewrite Hping.
    rewrite !bind_gets. cbn [d]. rewrite Hparse.
    unfold logReceived. rewrite bind_emit, bind_modify. reflexivity.
Qed.

End ReceiveClaims.

(** ** The numbering of the ledger *)

Section LedgerNumbering.

Context {Sock : Type} `{!SocketOps Sock} `{!StreamManagementFrames}.

Implicit Types (w : QXmppStream Sock) (p : QXmppStanza).

(** A numbered ledger has no entry under 0. *)
Lemma ledger_numbered_no_zero (q : QXmppStreamPrivate Sock) :
  ledger_numbered q -> unacknowledgedStanzas q !! 0 = None.
Proof.
  intros Hn. destruct (unacknowledgedStanzas q !! 0) as [v|] eqn:E; [|reflexivity].
  apply Hn in E. lia.
Qed.

Lemma ledger_numbered_new : ledger_numbered (@QXmppStreamPrivate_new Sock).
Proof. intros k v Hk. cbn in Hk. rewrite lookup_empty in Hk. discriminate. Qed.

(** A stream that has just been constructed, given a socket and had stream
    management enabled: the flag is on, the counter at zero, the ledger
    empty. *)
Lemma enabled_fresh_stream (s : option Sock) (resetSequenceNumber : bool) :
  let fresh := exec (enableStreamManagement resetSequenceNumber)
                    (exec (setSocket s) QXmppStream_new) in
  streamManagementEnabled (d fresh) = true /\
  lastOutgoingSequenceNumber (d fresh) = 0 /\
  unacknowledgedStanzas (d fresh) = ∅.
Proof.
  cbn zeta. rewrite enableStreamManagement_empty by reflexivity.
  destruct resetSequenceNumber; cbn; auto.
Qed.

Lemma sendPacket_ledger_numbered p w :
  ledger_numbered (d w) ->
  lastOutgoingSequenceNumber (d w) + 1 < UINT_MODULUS ->
  ledger_numbered (d (exec (sendPacket p) w)).
Proof.
  intros Hn Hlt k v.
  pose proof (sendPacket_sans_socket p w) as E. apply sans_socket_fields in E.
  destruct E as (_ & _ & _ & Em & Eout & _). rewrite Em, Eout.
  destruct (isXmppStanza p && streamManagementEnabled (d w)); [|apply Hn].
  cbn [when]. rewrite registerUnacknowledged_exec. cbn.
  rewrite (uint_incr_small _ Hlt). intros Hk.
  apply lookup_insert_Some in Hk. destruct Hk as [[<- _]|[_ Hk]]; [lia|].
  apply Hn in Hk. lia.
Qed.

Lemma setAcknowledgedSequenceNumber_ledger_numbered (sequenceNumber : N) w :
  ledger_numbered (d w) ->
  ledger_numbered (d (exec (setAcknowledgedSequenceNumber sequenceNumber) w)).
Proof.
  intros Hn k v. unfold setAcknowledgedSequenceNumber. rewrite exec_modify. cbn.
  rewrite erase_acknowledged_filter. intros Hk.
  apply map_lookup_filter_Some in Hk. destruct Hk as [Hk _]. exact (Hn k v Hk).
Qed.

Lemma disconnectFromHost_ledger_numbered w :
  ledger_numbered (d w) -> ledger_numbered (d (exec disconnectFromHost w)).
Proof.
  intros Hn k v. pose proof (disconnectFromHost_sans_socket w) as E.
  apply sans_socket_fields in E. destruct E as (_ & _ & _ & Em & Eout & _).
  rewrite Em, Eout. apply Hn.
Qed.

Lemma handleStart_ledger_numbered w :
  ledger_numbered (d w) -> ledger_numbered (d (exec handleStart w)).
Proof. intros Hn k v. apply Hn. Qed.

Lemma reRegistered_numbered (texts : list string) (n : N) (m : gmap N string) :
  n + N.of_nat (length texts) < UINT_MODULUS ->
  (reRegistered texts (n, m)).1 = n + N.of_nat (length texts) /\
  forall k v, (reRegistered texts (n, m)).2 !! k = Some v ->
              m !! k = Some v \/ (n + 1 <= k /\ k <= n + N.of_nat (length texts)).
Proof.
  revert n m. induction texts as [|t texts IH]; intros n m Hlt.
  - cbn. split; [lia|]. auto.
  - cbn [length] in Hlt. unfold reRegistered. cbn [foldl fst snd].
    fold (reRegistered texts (uint_incr n, <[uint_incr n := t]> m)).
    rewrite uint_incr_small by lia.
    destruct (IH (n + 1) (<[n + 1 := t]> m)) as [IH1 IH2]; [lia|].
    split; [rewrite IH1; cbn [length]; lia|].
    intros k v Hk. apply IH2 in Hk. cbn [length].
    destruct Hk as [Hk|Hk]; [|right; lia].
    apply lookup_insert_Some in Hk. destruct Hk as [[<- _]|[_ Hk]]; [right; lia|left; exact Hk].
Qed.

Lemma enableStreamManagement_ledger_numbered (resetSequenceNumber : bool) w :
  ledger_numbered (d w) ->
  N.of_nat (length (QMap_items (unacknowledgedStanzas (d w)))) < UINT_MODULUS ->
  ledger_numbered (d (exec (enableStreamManagement resetSequenceNumber) w)).
Proof.
  intros Hn Hlt k v.
  destruct (QMap_empty (unacknowledgedStanzas (d w))) eqn:Hm.
  - apply QMap_empty_spec in Hm. rewrite enableStreamManagement_empty by exact Hm.
    cbn. rewrite lookup_empty. discriminate.
  - destruct resetSequenceNumber.
    + destruct (enableStreamManagement_renumber w Hm) as (R & _).
      destruct (reRegistered_numbered
                  (map snd (QMap_items (unacknowledgedStanzas (d w)))) 0 ∅) as [R1 R2].
      { rewrite length_map. lia. }
      rewrite <- R in R1, R2. cbn [fst snd] in R1, R2.
      intros Hk. apply R2 in Hk. destruct Hk as [Hk|Hk].
      * rewrite lookup_empty in Hk. discriminate.
      * rewrite R1. lia.
    + destruct (enableStreamManagement_resend w Hm) as [E _].
      apply sans_socket_fields in E. destruct E as (_ & _ & _ & Em & Eout & _).
      rewrite Em, Eout. apply Hn.
Qed.

End LedgerNumbering.

(** ** More on sending and acknowledging *)

Section QMapOrder.

(** The iteration order of a map is the one list of its entries that ascends
    by key. *)
Lemma QMap_items_unique (m : gmap N string) (l : list (N * string)) :
  StronglySorted key_le l -> l ≡ₚ map_to_list m -> QMap_items m = l.
Proof.
  intros Hs Hp. apply (StronglySorted_unique_strong key_le).
  - intros [k1 v1] [k2 v2] H1 H2 H12 H21. unfold key_le in H12, H21. cbn in H12, H21.
    assert (k1 = k2) as -> by lia.
    apply QMap_items_elem_of in H1.
    rewrite Hp in H2. apply elem_of_map_to_list in H2. congruence.
  - apply QMap_items_ascending.
  - exact Hs.
  - rewrite QMap_items_Permutation. symmetry. exact Hp.
Qed.

(** An entry entered above every key comes last. *)
Lemma QMap_items_insert_last (m : gmap N string) (k : N) (v : string) :
  (forall k' v', m !! k' = Some v' -> k' < k) ->
  QMap_items (<[k := v]> m) = QMap_items m ++ [(k, v)].
Proof.
  intros Hlt. apply QMap_items_unique.
  - apply StronglySorted_app. split; [|split].
    + intros [k1 v1] x2 H1 H2. apply list_elem_of_singleton in H2. subst x2.
      apply QMap_items_elem_of in H1. apply Hlt in H1. unfold key_le. cbn. lia.
    + apply QMap_items_ascending.
    + repeat constructor.
  - rewrite map_to_list_insert.
    + rewrite <- Permutation_cons_append. constructor. apply QMap_items_Permutation.
    + destruct (m !! k) as [v'|] eqn:E; [|reflexivity]. apply Hlt in E. lia.
Qed.

Lemma QMap_items_empty : QMap_items (∅ : gmap N string) = [].
Proof. unfold QMap_items. rewrite map_to_list_empty. reflexivity. Qed.

(** Entering texts under consecutive numbers above every key appends them
    to the iteration order. *)
Lemma QMap_items_foldl_insert (texts : list string) (n0 : N) (m : gmap N string) :
  (forall k v, m !! k = Some v -> k <= n0) ->
  QMap_items
    (foldl (fun acc kv => <[kv.1 := kv.2]> acc) m
           (zip (map (fun i => n0 + N.of_nat i) (seq 1 (length texts))) texts))
  = QMap_items m ++ zip (map (fun i => n0 + N.of_nat i) (seq 1 (length texts))) texts.
Proof.
  revert n0 m. induction texts as [|t texts IH]; intros n0 m Hle.
  - cbn. rewrite app_nil_r. reflexivity.
  - cbn [length seq map zip zip_with foldl fst snd].
    assert (map (fun i => n0 + N.of_nat i) (seq 2 (length texts))
            = map (fun i => (n0 + 1) + N.of_nat i) (seq 1 (length texts))) as E.
    { rewrite <- (seq_shift _ 1), map_map. apply map_ext. intros i. lia. }
    rewrite E. replace (n0 + N.of_nat 1) with (n0 + 1) by lia.
    rewrite IH.
    + rewrite QMap_items_insert_last.
      * rewrite <- app_assoc. reflexivity.
      * intros k' v' Hk. apply Hle in Hk. lia.
    + intros k v Hk. apply lookup_insert_Some in Hk.
      destruct Hk as [[<- _]|[_ Hk]]; [lia|]. apply Hle in Hk. lia.
Qed.

(** Without a wrap-around, [reRegistered] enters the texts under the
    numbers that follow the counter. *)
Lemma reRegistered_foldl_insert (texts : list string) (n0 : N) (m : gmap N string) :
  n0 + N.of_nat (length texts) < UINT_MODULUS ->
  reRegistered texts (n0, m) =
  (n0 + N.of_nat (length texts),
   foldl (fun acc kv => <[kv.1 := kv.2]> acc) m
         (zip (map (fun i => n0 + N.of_nat i) (seq 1 (length texts))) texts)).
Proof.
  revert n0 m. induction texts as [|t texts IH]; intros n0 m Hlt.
  - cbn. f_equal. lia.
  - cbn [length] in Hlt. unfold reRegistered. cbn [foldl fst snd].
    fold (reRegistered texts (uint_incr n0, <[uint_incr n0 := t]> m)).
    rewrite uint_incr_small by lia. rewrite IH by lia.
    cbn [length seq map zip zip_with foldl fst snd].
    assert (map (fun i => n0 + N.of_nat i) (seq 2 (length texts))
            = map (fun i => (n0 + 1) + N.of_nat i) (seq 1 (length texts))) as E.
    { rewrite <- (seq_shift _ 1), map_map. apply map_ext. intros i. lia. }
    rewrite E. replace (n0 + N.of_nat 1) with (n0 + 1) by lia.
    f_equal. lia.
Qed.

End QMapOrder.

Section SendAckExtras.

Context {Sock : Type} `{!SocketOps Sock} `{!StreamManagementFrames}.

Implicit Types (w : QXmppStream Sock) (text : string) (p : QXmppStanza).

Lemma sendAcknowledgementRequest_disabled w :
  streamManagementEnabled (d w) = false -> sendAcknowledgementRequest w = (tt, w).
Proof.
  intros Hen. unfold sendAcknowledgementRequest. rewrite bind_gets, Hen. reflexivity.
Qed.

Lemma sendData_wireTexts_not_connected text w :
  eval isConnected w = false ->
  wireTexts (trace (exec (sendData text) w)) = wireTexts (trace w).
Proof.
  intros Hc. unfold exec. rewrite sendData_not_connected by exact Hc. cbn.
  rewrite wireTexts_app. apply app_nil_r.
Qed.

Lemma sendData_isConnected_not_connected text w :
  eval isConnected w = false -> eval isConnected (exec (sendData text) w) = false.
Proof.
  intros Hc. unfold exec. rewrite sendData_not_connected by exact Hc. exact Hc.
Qed.

Lemma setAcknowledgedSequenceNumber_lookup (sequenceNumber : N) w (k : N) :
  unacknowledgedStanzas (d (exec (setAcknowledgedSequenceNumber sequenceNumber) w)) !! k
  = if decide (k <= sequenceNumber) then None else unacknowledgedStanzas (d w) !! k.
Proof.
  unfold setAcknowledgedSequenceNumber. rewrite exec_modify. cbn.
  rewrite erase_acknowledged_filter.
  destruct (unacknowledgedStanzas (d w) !! k) as [v|] eqn:Hk.
  - case_decide as Hd.
    + apply map_lookup_filter_None. right. intros v' _. cbn. lia.
    + apply map_lookup_filter_Some. split; [exact Hk|cbn; lia].
  - case_decide; apply map_lookup_filter_None; left; exact Hk.
Qed.

(** X1. A packet that is not an XMPP stanza, and any packet while stream
    management is off, is sent as by [sendData] alone: same result, same
    stream afterwards -- no ledger entry, no request for an acknowledgement. *)
Theorem X1_unmanaged_sendPacket_is_sendData p w :
  isXmppStanza p && streamManagementEnabled (d w) = false ->
  sendPacket p w = sendData (toXml p) w.
Proof.
  intros Hoff. rewrite sendPacket_run. cbn zeta. rewrite Hoff. cbn [when].
  rewrite exec_ret. rewrite (run_pair (sendData (toXml p)) w). f_equal.
  destruct (isXmppStanza p); [|reflexivity]. cbn [when andb] in *.
  unfold exec at 1. rewrite sendAcknowledgementRequest_disabled; [reflexivity|].
  pose proof (sendData_sans_socket (toXml p) w) as E.
  apply sans_socket_fields in E. destruct E as (_ & _ & -> & _). exact Hoff.
Qed.

(** X2. An XMPP stanza sent while stream management is on gives [sendData]
    exactly two texts, the stanza and then one request for an
    acknowledgement, whatever the first [sendData] returned.  When the stream
    is not connected, neither reaches the socket, the call returns [false],
    and the stanza is in the ledger all the same. *)
Theorem X2_managed_stanza_is_followed_by_one_request p w :
  streamManagementEnabled (d w) = true ->
  isXmppStanza p = true ->
  sentTexts (trace (exec (sendPacket p) w)) = sentTexts (trace w) ++ [toXml p; req_toXml] /\
  (eval isConnected w = false ->
     wireTexts (trace (exec (sendPacket p) w)) = wireTexts (trace w) /\
     eval (sendPacket p) w = false /\
     unacknowledgedStanzas (d (exec (sendPacket p) w))
       !! uint_incr (lastOutgoingSequenceNumber (d w)) = Some (toXml p)).
Proof.
  intros Hen Hp.
  pose proof (sendPacket_run p w) as Hrun. cbn zeta in Hrun.
  rewrite Hp, Hen in Hrun. cbn [andb when] in Hrun.
  set (w1 := exec (registerUnacknowledged (toXml p)) w) in Hrun.
  assert (streamManagementEnabled (d (exec (sendData (toXml p)) w1)) = true) as Hen2.
  { pose proof (sendData_sans_socket (toXml p) w1) as E.
    apply sans_socket_fields in E. destruct E as (_ & _ & -> & _). exact Hen. }
  split.
  - unfold exec at 1. rewrite Hrun. cbn [snd].
    rewrite sendAcknowledgementRequest_sentTexts, Hen2, sendData_sentTexts.
    rewrite <- app_assoc. reflexivity.
  - intros Hc.
    assert (eval isConnected w1 = false) as Hc1
      by (unfold w1; rewrite registerUnacknowledged_isConnected; exact Hc).
    split; [|split].
    + unfold exec at 1. rewrite Hrun. cbn [snd].
      unfold sendAcknowledgementRequest. rewrite exec_bind, eval_gets, exec_gets, Hen2.
      cbn [negb]. rewrite exec_bind, exec_ret.
      rewrite sendData_wireTexts_not_connected
        by (apply sendData_isConnected_not_connected; exact Hc1).
      rewrite sendData_wireTexts_not_connected by exact Hc1. reflexivity.
    + unfold eval at 1. rewrite Hrun. cbn [fst]. unfold eval.
      rewrite sendData_not_connected by exact Hc1. reflexivity.
    + pose proof (sendPacket_registered p w Hp Hen) as E.
      apply sans_socket_fields in E. cbn in E. destruct E as (_ & _ & _ & -> & _).
      apply lookup_insert_eq.
Qed.

(** X3. Acknowledgements are cumulative: acknowledging one number and then
    another leaves what acknowledging the greater of the two leaves.  So a
    lower number after a higher one, or the same number twice, changes
    nothing more. *)
Theorem X3_acknowledgements_accumulate (a b : N) w :
  exec (setAcknowledgedSequenceNumber b) (exec (setAcknowledgedSequenceNumber a) w)
  = exec (setAcknowledgedSequenceNumber (N.max a b)) w.
Proof.
  rewrite !setAcknowledgedSequenceNumber_exec. cbn. f_equal.
  unfold set_unacknowledgedStanzas. cbn. f_equal.
  rewrite map_filter_filter. apply map_filter_ext. intros k v _. cbn. lia.
Qed.

(** X4. Send and acknowledge.  On a stream whose ledger is numbered, with
    stream management on and the counter short of its last value: after an
    XMPP stanza is sent, acknowledging the number the counter had before
    leaves exactly the new entry, and acknowledging the number the counter
    has now leaves the ledger empty. *)
Theorem X4_send_then_acknowledge p w :
  streamManagementEnabled (d w) = true ->
  isXmppStanza p = true ->
  ledger_numbered (d w) ->
  lastOutgoingSequenceNumber (d w) + 1 < UINT_MODULUS ->
  let sent := exec (sendPacket p) w in
  lastOutgoingSequenceNumber (d sent) = lastOutgoingSequenceNumber (d w) + 1 /\
  unacknowledgedStanzas
    (d (exec (setAcknowledgedSequenceNumber (lastOutgoingSequenceNumber (d w))) sent))
    = {[lastOutgoingSequenceNumber (d w) + 1 := toXml p]} /\
  unacknowledgedStanzas
    (d (exec (setAcknowledgedSequenceNumber (lastOutgoingSequenceNumber (d sent))) sent))
    = ∅.
Proof.
  intros Hen Hp Hn Hlt sent.
  pose proof (sendPacket_registered p w Hp Hen) as E.
  apply sans_socket_fields in E. cbn in E. fold sent in E.
  destruct E as (_ & _ & _ & Em & Eout & _).
  rewrite (uint_incr_small _ Hlt) in Em, Eout.
  split; [exact Eout|]. split.
  - apply map_eq. intros k. rewrite setAcknowledgedSequenceNumber_lookup, Em.
    destruct (decide (k = lastOutgoingSequenceNumber (d w) + 1)) as [->|Hne].
    + rewrite lookup_insert_eq, lookup_singleton_eq. case_decide; [lia|reflexivity].
    + rewrite lookup_insert_ne, lookup_singleton_ne by congruence.
      case_decide as Hd; [reflexivity|].
      destruct (unacknowledgedStanzas (d w) !! k) as [v|] eqn:Hk; [|reflexivity].
      apply Hn in Hk. lia.
  - apply map_eq. intros k. rewrite setAcknowledgedSequenceNumber_lookup, Em, Eout.
    rewrite lookup_empty. case_decide as Hd; [reflexivity|].
    rewrite lookup_insert_ne by lia.
    destruct (unacknowledgedStanzas (d w) !! k) as [v|] eqn:Hk; [|reflexivity].
    apply Hn in Hk. lia.
Qed.

(** X5. The numbering of the ledger is an invariant.  It holds on a new
    stream, and every operation of the stream on the ledger keeps it: a send
    (while the counter is short of its last value), an acknowledgement, a
    (re)start, a disconnect, and enabling stream management with or without
    a reset (while the ledger has fewer than 2^32 entries).  A numbered
    ledger has no entry under 0, and none above the counter. *)
Theorem X5_ledger_numbering_is_kept w p (sequenceNumber : N) (element : QDomElement)
    (resetSequenceNumber : bool) :
  ledger_numbered (d w) ->
  ledger_numbered (d (@QXmppStream_new Sock)) /\
  (lastOutgoingSequenceNumber (d w) + 1 < UINT_MODULUS ->
     ledger_numbered (d (exec (sendPacket p) w))) /\
  ledger_numbered (d (exec (setAcknowledgedSequenceNumber sequenceNumber) w)) /\
  ledger_numbered (d (exec (handleAcknowledgement element) w)) /\
  ledger_numbered (d (exec handleStart w)) /\
  ledger_numbered (d (exec disconnectFromHost w)) /\
  (N.of_nat (length (QMap_items (unacknowledgedStanzas (d w)))) < UINT_MODULUS ->
     ledger_numbered (d (exec (enableStreamManagement resetSequenceNumber) w))) /\
  unacknowledgedStanzas (d w) !! 0 = None /\
  (forall k, lastOutgoingSequenceNumber (d w) < k -> unacknowledgedStanzas (d w) !! k = None).
Proof.
  intros Hn. split; [apply ledger_numbered_new|].
  split; [apply sendPacket_ledger_numbered; exact Hn|].
  split; [apply setAcknowledgedSequenceNumber_ledger_numbered; exact Hn|].
  split.
  { unfold handleAcknowledgement. rewrite exec_bind, eval_gets, exec_gets.
    destruct (streamManagementEnabled (d w)); cbn [negb]; [|exact Hn].
    apply setAcknowledgedSequenceNumber_ledger_numbered. exact Hn. }
  split; [apply handleStart_ledger_numbered; exact Hn|].
  split; [apply disconnectFromHost_ledger_numbered; exact Hn|].
  split; [apply enableStreamManagement_ledger_numbered; exact Hn|].
  split; [apply ledger_numbered_no_zero; exact Hn|].
  intros k Hk. destruct (unacknowledgedStanzas (d w) !! k) as [v|] eqn:E; [|reflexivity].
  apply Hn in E. lia.
Qed.

End SendAckExtras.

(** ** More on enabling stream management *)

Section EnableExtras.

Context {Sock : Type} `{!SocketOps Sock} `{!StreamManagementFrames}.

Implicit Types (w : QXmppStream Sock) (text : string) (p : QXmppStanza).

Lemma QMap_empty_items (m : gmap N string) :
  QMap_empty m = match QMap_items m with [] => true | _ :: _ => false end.
Proof.
  unfold QMap_empty. pose proof (QMap_items_Permutation m) as Hp.
  destruct (map_to_list m) as [|x l]; destruct (QMap_items m) as [|y l'];
    try reflexivity.
  - symmetry in Hp. apply Permutation_nil_cons in Hp. contradiction.
  - apply Permutation_nil_cons in Hp. contradiction.
Qed.

Lemma map_snd_zip_same_length {A B : Type} (ks : list A) (ts : list B) :
  length ks = length ts -> map snd (zip ks ts) = ts.
Proof.
  revert ts. induction ks as [|k ks IH]; intros [|t ts] Hl; try discriminate; [reflexivity|].
  cbn. f_equal. apply IH. injection Hl. auto.
Qed.

(** The texts of the ledger, by ascending sequence number. *)
Lemma pending_after_enableStreamManagement_false w :
  unacknowledgedStanzas (d (exec (enableStreamManagement false) w))
  = unacknowledgedStanzas (d w).
Proof.
  destruct (QMap_empty (unacknowledgedStanzas (d w))) eqn:Hm.
  - apply QMap_empty_spec in Hm. rewrite enableStreamManagement_empty by exact Hm.
    cbn. symmetry. exact Hm.
  - destruct (enableStreamManagement_resend w Hm) as [E _].
    apply sans_socket_fields in E. destruct E as (_ & _ & _ & -> & _). reflexivity.
Qed.

Lemma enableStreamManagement_false_sentTexts w :
  sentTexts (trace (exec (enableStreamManagement false) w)) =
    sentTexts (trace w) ++
    match map snd (QMap_items (unacknowledgedStanzas (d w))) with
    | [] => []
    | _ :: _ => map snd (QMap_items (unacknowledgedStanzas (d w))) ++ [req_toXml]
    end.
Proof.
  pose proof (QMap_empty_items (unacknowledgedStanzas (d w))) as He.
  destruct (QMap_empty (unacknowledgedStanzas (d w))) eqn:Hm.
  - destruct (QMap_items (unacknowledgedStanzas (d w))) as [|x l] eqn:Hi; [|discriminate].
    apply QMap_empty_spec in Hm. rewrite enableStreamManagement_empty by exact Hm.
    cbn. rewrite app_nil_r. reflexivity.
  - destruct (enableStreamManagement_resend w Hm) as [_ Et]. rewrite Et.
    destruct (QMap_items (unacknowledgedStanzas (d w))) as [|x l] eqn:Hi;
      [discriminate|reflexivity].
Qed.

(** X6. Enabling stream management without a reset, on any ledger: every
    unacknowledged text is given to [sendData] again, by ascending sequence
    number, followed by one request for an acknowledgement -- or nothing at
    all when the ledger is empty.  Ledger, counters, buffer and captured
    stream start are left as they were, and the flag is on. *)
Theorem X6_enable_without_reset_resends_by_ascending_number w :
  let w' := exec (enableStreamManagement false) w in
  let pending := map snd (QMap_items (unacknowledgedStanzas (d w))) in
  sentTexts (trace w') =
    sentTexts (trace w) ++
    match pending with [] => [] | _ :: _ => pending ++ [req_toXml] end /\
  StronglySorted key_le (QMap_items (unacknowledgedStanzas (d w))) /\
  streamManagementEnabled (d w') = true /\
  unacknowledgedStanzas (d w') = unacknowledgedStanzas (d w) /\
  lastOutgoingSequenceNumber (d w') = lastOutgoingSequenceNumber (d w) /\
  lastIncomingSequenceNumber (d w') = lastIncomingSequenceNumber (d w) /\
  dataBuffer (d w') = dataBuffer (d w) /\
  streamStart (d w') = streamStart (d w).
Proof.
  intros w' pending. unfold w', pending.
  pose proof (QMap_empty_items (unacknowledgedStanzas (d w))) as He.
  destruct (QMap_empty (unacknowledgedStanzas (d w))) eqn:Hm.
  - destruct (QMap_items (unacknowledgedStanzas (d w))) as [|x l] eqn:Hi; [|discriminate].
    apply QMap_empty_spec in Hm. rewrite enableStreamManagement_empty by exact Hm.
    cbn. rewrite app_nil_r. repeat split; try reflexivity; [constructor|congruence].
  - destruct (enableStreamManagement_resend w Hm) as [E Et].
    apply sans_socket_fields in E. cbn in E.
    destruct E as (Eb & Es & Een & Em & Eout & Ein).
    split.
    { rewrite Et. destruct (QMap_items (unacknowledgedStanzas (d w))) as [|x l] eqn:Hi;
        [discriminate|reflexivity]. }
    split; [apply QMap_items_ascending|]. auto 10.
Qed.

(** X7. Enabling stream management with a reset, on any ledger of fewer
    than 2^32 entries: the texts keep their order and are numbered 1, 2, ...
    anew; the outgoing counter ends at their number, the incoming counter at
    0; each text is given to [sendData], in this order, followed by one
    request for an acknowledgement (nothing when the ledger is empty). *)
Theorem X7_enable_with_reset_renumbers_from_one w :
  let pending := map snd (QMap_items (unacknowledgedStanzas (d w))) in
  N.of_nat (length pending) < UINT_MODULUS ->
  let w' := exec (enableStreamManagement true) w in
  QMap_items (unacknowledgedStanzas (d w'))
    = zip (map N.of_nat (seq 1 (length pending))) pending /\
  lastOutgoingSequenceNumber (d w') = N.of_nat (length pending) /\
  lastIncomingSequenceNumber (d w') = 0 /\
  streamManagementEnabled (d w') = true /\
  sentTexts (trace w') =
    sentTexts (trace w) ++
    match pending with [] => [] | _ :: _ => pending ++ [req_toXml] end.
Proof.
  intros pending Hlt w'. unfold w'.
  pose proof (QMap_empty_items (unacknowledgedStanzas (d w))) as He.
  destruct (QMap_empty (unacknowledgedStanzas (d w))) eqn:Hm.
  - assert (pending = []) as Hp.
    { unfold pending. destruct (QMap_items (unacknowledgedStanzas (d w)));
        [reflexivity|discriminate]. }
    apply QMap_empty_spec in Hm. rewrite enableStreamManagement_empty by exact Hm.
    rewrite Hp. cbn. rewrite QMap_items_empty, app_nil_r. auto.
  - destruct (enableStreamManagement_renumber w Hm) as (R & Rin & Ren & _ & _ & Rt).
    fold pending in R, Rt.
    rewrite reRegistered_foldl_insert in R by (rewrite N.add_0_l; exact Hlt).
    injection R as Rout Rm.
    assert (map (fun i => 0 + N.of_nat i) (seq 1 (length pending))
            = map N.of_nat (seq 1 (length pending))) as E0
      by (apply map_ext; intros i; lia).
    split.
    { rewrite Rm, QMap_items_foldl_insert.
      - rewrite QMap_items_empty, E0. reflexivity.
      - intros k v Hk. rewrite lookup_empty in Hk. discriminate. }
    split; [rewrite Rout; lia|]. split; [exact Rin|]. split; [exact Ren|].
    rewrite Rt. unfold pending in *.
    destruct (QMap_items (unacknowledgedStanzas (d w))); [discriminate|reflexivity].
Qed.

(** X8. What was sent and not acknowledged is sent again on resumption, in
    the order of sending.  From a stream with stream management on and a
    numbered ledger, after any run of sends that does not wrap the counter,
    the ledger holds, by ascending number, the texts it held followed by the
    texts of the XMPP stanzas of the run; after a (re)start of the stream,
    enabling stream management without a reset gives exactly these to
    [sendData], then one request for an acknowledgement. *)
Theorem X8_unacknowledged_stanzas_are_resent_in_send_order w (packets : list QXmppStanza) :
  streamManagementEnabled (d w) = true ->
  ledger_numbered (d w) ->
  lastOutgoingSequenceNumber (d w)
    + N.of_nat (length (List.filter isXmppStanza packets)) < UINT_MODULUS ->
  let sent := sendPackets packets w in
  let pending := map snd (QMap_items (unacknowledgedStanzas (d w)))
                 ++ map toXml (List.filter isXmppStanza packets) in
  let resumed := exec (enableStreamManagement false) (exec handleStart sent) in
  map snd (QMap_items (unacknowledgedStanzas (d sent))) = pending /\
  sentTexts (trace resumed) =
    sentTexts (trace sent) ++
    match pending with [] => [] | _ :: _ => pending ++ [req_toXml] end /\
  unacknowledgedStanzas (d resumed) = unacknowledgedStanzas (d sent).
Proof.
  intros Hen Hn Hlt sent pending resumed.
  assert (map snd (QMap_items (unacknowledgedStanzas (d sent))) = pending) as Hp.
  { unfold sent, pending. rewrite sendPackets_ledger by exact Hen.
    rewrite assignedSequenceNumbers_run by assumption.
    rewrite <- (length_map toXml (List.filter isXmppStanza packets)).
    rewrite QMap_items_foldl_insert by (intros k v Hk; apply Hn in Hk; lia).
    rewrite map_app, map_snd_zip_same_length; [reflexivity|].
    rewrite length_map, length_seq. reflexivity. }
  split; [exact Hp|].
  split; [|unfold resumed; rewrite pending_after_enableStreamManagement_false;
            reflexivity].
  unfold resumed. rewrite enableStreamManagement_false_sentTexts.
  rewrite handleStart_exec. cbn [d trace unacknowledgedStanzas].
  rewrite Hp. reflexivity.
Qed.

End EnableExtras.

(** ** More on receiving *)

Section ReceiveExtras.

Context {Sock : Type} `{!SocketOps Sock} `{!XmlOps} `{!QStringOps}
        `{!StreamManagementFrames} `{!StreamHandlers Sock}.

Implicit Types (w : QXmppStream Sock) (text : string) (nodes : list QDomElement).

Lemma sendData_dispatched text w :
  dispatched (trace (exec (sendData text) w)) = dispatched (trace w).
Proof.
  unfold sendData, logSent. run.
  destruct (socket (d w)) as [sk|]; cbn; [|rewrite dispatched_app; apply app_nil_r].
  destruct (sock_isConnected sk); cbn; [|rewrite dispatched_app; apply app_nil_r].
  destruct (sock_sendTextMessage text sk). cbn.
  rewrite !dispatched_app. cbn. rewrite !app_nil_r. reflexivity.
Qed.

Lemma sendAcknowledgement_sans_socket w :
  sans_socket (d (exec sendAcknowledgement w)) = sans_socket (d w).
Proof.
  unfold sendAcknowledgement. rewrite exec_bind, eval_gets, exec_gets.
  destruct (streamManagementEnabled (d w)); cbn [negb]; [|reflexivity].
  rewrite exec_bind, eval_gets, exec_gets, exec_bind, exec_ret.
  apply sendData_sans_socket.
Qed.

Lemma sendAcknowledgement_sentTexts w :
  sentTexts (trace (exec sendAcknowledgement w)) =
  sentTexts (trace w) ++
  (if streamManagementEnabled (d w)
   then [ack_toXml (lastIncomingSequenceNumber (d w))] else []).
Proof.
  unfold sendAcknowledgement. rewrite exec_bind, eval_gets, exec_gets.
  destruct (streamManagementEnabled (d w)); cbn [negb].
  - rewrite exec_bind, eval_gets, exec_gets, exec_bind, exec_ret.
    apply sendData_sentTexts.
  - rewrite exec_ret. symmetry. apply app_nil_r.
Qed.

Lemma sendAcknowledgement_dispatched w :
  dispatched (trace (exec sendAcknowledgement w)) = dispatched (trace w).
Proof.
  unfold sendAcknowledgement. rewrite exec_bind, eval_gets, exec_gets.
  destruct (streamManagementEnabled (d w)); cbn [negb]; [|reflexivity].
  rewrite exec_bind, eval_gets, exec_gets, exec_bind, exec_ret.
  apply sendData_dispatched.
Qed.

Lemma handleAcknowledgement_exec (element : QDomElement) w :
  exec (handleAcknowledgement element) w =
  if streamManagementEnabled (d w)
  then exec (setAcknowledgedSequenceNumber (ack_seqNo element)) w
  else w.
Proof.
  unfold handleAcknowledgement. rewrite exec_bind, eval_gets, exec_gets.
  destruct (streamManagementEnabled (d w)); reflexivity.
Qed.

Lemma handleAcknowledgement_frame (element : QDomElement) w :
  lastIncomingSequenceNumber (d (exec (handleAcknowledgement element) w))
    = lastIncomingSequenceNumber (d w) /\
  streamManagementEnabled (d (exec (handleAcknowledgement element) w))
    = streamManagementEnabled (d w) /\
  trace (exec (handleAcknowledgement element) w) = trace w.
Proof.
  rewrite handleAcknowledgement_exec.
  destruct (streamManagementEnabled (d w)) eqn:Hen; [|auto].
  unfold setAcknowledgedSequenceNumber. rewrite exec_modify. cbn. auto.
Qed.

Lemma processStanzas_cons (e : QDomElement) nodes w :
  isNull e = false ->
  exec (processStanzas (e :: nodes)) w = exec (processStanzas nodes) (exec (processStanza e) w).
Proof. intros Hn. cbn [processStanzas]. rewrite Hn, exec_bind. reflexivity. Qed.

Lemma processStanza_forHandler (e : QDomElement) w :
  isForHandler e = true ->
  exec (processStanza e) w =
  exec (when (isCountedStanza e)
          (modify (fun p => set_lastIncomingSequenceNumber
                              (uint_incr (lastIncomingSequenceNumber p)) p)))
       (exec (handleStanza e)
             {| d := d w; trace := trace w ++ [CalledHandleStanza e] |}).
Proof.
  unfold isForHandler. intros Hf. apply andb_true_iff in Hf. destruct Hf as [Ha Hr].
  apply negb_true_iff in Ha, Hr.
  unfold processStanza. rewrite Ha, Hr, exec_bind.
  unfold call_handleStanza. rewrite exec_bind, exec_emit. reflexivity.
Qed.

Lemma iter_uint_incr (c : nat) (n : N) :
  n < UINT_MODULUS -> Nat.iter c uint_incr n = (n + N.of_nat c) mod UINT_MODULUS.
Proof.
  intros Hn. induction c as [|c IH].
  - cbn. rewrite N.add_0_r, N.mod_small by exact Hn. reflexivity.
  - change (Nat.iter (S c) uint_incr n) with (uint_incr (Nat.iter c uint_incr n)).
    rewrite IH. unfold uint_incr.
    rewrite N.Div0.add_mod_idemp_l. f_equal. lia.
Qed.

(** The incoming counter over the loop, by the number of counted children. *)
Lemma processStanzas_lastIncoming nodes w :
  (forall e w', lastIncomingSequenceNumber (d (exec (handleStanza e) w'))
                = lastIncomingSequenceNumber (d w')) ->
  Forall (fun e => isNull e = false) nodes ->
  lastIncomingSequenceNumber (d (exec (processStanzas nodes) w)) =
  Nat.iter (length (List.filter (fun e => isForHandler e && isCountedStanza e) nodes))
           uint_incr (lastIncomingSequenceNumber (d w)).
Proof.
  intros Hh Hnn. revert w. induction Hnn as [|e nodes He _ IH]; intros w; [reflexivity|].
  rewrite processStanzas_cons by exact He. rewrite IH. cbn [List.filter].
  destruct (isForHandler e) eqn:Hf; cbn [andb].
  - rewrite processStanza_forHandler by exact Hf.
    destruct (isCountedStanza e); cbn [when length].
    + rewrite exec_modify. cbn [d lastIncomingSequenceNumber set_lastIncomingSequenceNumber].
      rewrite Hh. cbn [d]. rewrite Nat.iter_succ_r. reflexivity.
    + rewrite exec_ret, Hh. reflexivity.
  - f_equal. unfold isForHandler in Hf. unfold processStanza.
    destruct (isStreamManagementAck e); cbn in Hf.
    + apply (handleAcknowledgement_frame e w).
    + destruct (isStreamManagementReq e); [|discriminate].
      pose proof (sendAcknowledgement_sans_socket w) as E.
      apply sans_socket_fields in E. destruct E as (_ & _ & _ & _ & _ & E). exact E.
Qed.

(** X9. Over the children of a document, the incoming counter advances by
    one for every child that goes to [handleStanza] and is a message, a
    presence or an iq, modulo 2^32 -- acknowledgements and requests are not
    counted.  This holds for handlers that leave the counter alone. *)
Theorem X9_incoming_counter_counts_the_stanzas_of_a_document nodes w :
  (forall e w', lastIncomingSequenceNumber (d (exec (handleStanza e) w'))
                = lastIncomingSequenceNumber (d w')) ->
  Forall (fun e => isNull e = false) nodes ->
  lastIncomingSequenceNumber (d w) < UINT_MODULUS ->
  lastIncomingSequenceNumber (d (exec (processStanzas nodes) w)) =
  (lastIncomingSequenceNumber (d w)
   + N.of_nat (length (List.filter (fun e => isForHandler e && isCountedStanza e) nodes)))
  mod UINT_MODULUS.
Proof.
  intros Hh Hnn Hlt. rewrite processStanzas_lastIncoming by assumption.
  apply iter_uint_incr. exact Hlt.
Qed.

(** X10. The children of a document go to [handleStanza] in document
    order, each once, except the acknowledgements and the requests, which
    never do.  This holds for handlers that do not dispatch themselves. *)
Theorem X10_children_are_dispatched_in_document_order nodes w :
  (forall e w', dispatched (trace (exec (handleStanza e) w')) = dispatched (trace w')) ->
  Forall (fun e => isNull e = false) nodes ->
  dispatched (trace (exec (processStanzas nodes) w)) =
  dispatched (trace w) ++ List.filter isForHandler nodes.
Proof.
  intros Hh Hnn. revert w. induction Hnn as [|e nodes He _ IH]; intros w.
  - cbn. rewrite app_nil_r. reflexivity.
  - rewrite processStanzas_cons by exact He. rewrite IH. cbn [List.filter].
    destruct (isForHandler e) eqn:Hf.
    + rewrite processStanza_forHandler by exact Hf.
      assert (forall b w', trace (exec (when b
                 (modify (fun p : QXmppStreamPrivate Sock => set_lastIncomingSequenceNumber
                            (uint_incr (lastIncomingSequenceNumber p)) p))) w') = trace w') as Hw
        by (intros [] w'; reflexivity).
      rewrite Hw, Hh. cbn [trace]. rewrite dispatched_app. cbn.
      rewrite <- app_assoc. reflexivity.
    + f_equal. unfold isForHandler in Hf. unfold processStanza.
      destruct (isStreamManagementAck e); cbn in Hf.
      * destruct (handleAcknowledgement_frame e w) as (_ & _ & ->). reflexivity.
      * destruct (isStreamManagementReq e); [|discriminate].
        apply sendAcknowledgement_dispatched.
Qed.

End ReceiveExtras.

Section DocumentExtras.

Context {Sock : Type} `{!SocketOps Sock} `{!XmlOps} `{!QStringOps}
        `{!StreamManagementFrames} `{!StreamHandlers Sock}.

Implicit Types (w : QXmppStream Sock) (text : string) (nodes : list QDomElement).

Lemma processStanzas_app nodes (r : QDomElement) w :
  Forall (fun e => isNull e = false) nodes ->
  isNull r = false ->
  exec (processStanzas (nodes ++ [r])) w
  = exec (processStanza r) (exec (processStanzas nodes) w).
Proof.
  intros Hnn Hr. revert w. induction Hnn as [|e nodes He _ IH]; intros w.
  - cbn [app]. rewrite processStanzas_cons by exact Hr. reflexivity.
  - cbn [app]. rewrite !processStanzas_cons by exact He. apply IH.
Qed.

(** With handlers that change neither the private data (the socket apart)
    nor what has been sent, a run of children for the handler leaves the
    flag and the sent texts as they were. *)
Lemma processStanzas_quiet nodes w :
  (forall e w', sans_socket (d (exec (handleStanza e) w')) = sans_socket (d w') /\
                sentTexts (trace (exec (handleStanza e) w')) = sentTexts (trace w')) ->
  Forall (fun e => isNull e = false /\ isForHandler e = true) nodes ->
  streamManagementEnabled (d (exec (processStanzas nodes) w)) = streamManagementEnabled (d w) /\
  sentTexts (trace (exec (processStanzas nodes) w)) = sentTexts (trace w).
Proof.
  intros Hq Hnn. revert w. induction Hnn as [|e nodes [He Hf] _ IH]; intros w; [auto|].
  rewrite processStanzas_cons by exact He.
  destruct (IH (exec (processStanza e) w)) as [IH1 IH2]. rewrite IH1, IH2.
  rewrite processStanza_forHandler by exact Hf.
  set (w0 := {| d := d w; trace := trace w ++ [CalledHandleStanza e] |}).
  destruct (Hq e w0) as [Hs Ht]. apply sans_socket_fields in Hs.
  destruct Hs as (_ & _ & Hen & _).
  assert (sentTexts (trace w0) = sentTexts (trace w)) as Ht0.
  { unfold w0. cbn [trace]. rewrite sentTexts_app. apply app_nil_r. }
  destruct (isCountedStanza e); cbn [when].
  - rewrite exec_modify. cbn. rewrite Hen, Ht, Ht0. auto.
  - rewrite exec_ret, Hen, Ht, Ht0. auto.
Qed.

Lemma filter_forHandler_counted nodes :
  Forall (fun e => isNull e = false /\ isForHandler e = true) nodes ->
  List.filter (fun e => isForHandler e && isCountedStanza e) nodes
  = List.filter isCountedStanza nodes.
Proof.
  induction 1 as [|e nodes [_ Hf] _ IH]; [reflexivity|].
  cbn [List.filter]. rewrite Hf, IH. reflexivity.
Qed.

(** X11. A request for an acknowledgement is answered at once with the
    count reached so far in the same document: after children that all go
    to [handleStanza], a request child gives [sendData] one acknowledgement
    carrying the incoming counter advanced by the messages, presences and
    iqs before it -- and nothing when stream management is off.  This holds
    for handlers that change neither the private data (the socket apart) nor
    what has been sent. *)
Theorem X11_request_is_answered_with_the_count_so_far nodes (r : QDomElement) w :
  (forall e w', sans_socket (d (exec (handleStanza e) w')) = sans_socket (d w') /\
                sentTexts (trace (exec (handleStanza e) w')) = sentTexts (trace w')) ->
  Forall (fun e => isNull e = false /\ isForHandler e = true) nodes ->
  isNull r = false ->
  isStreamManagementAck r = false ->
  isStreamManagementReq r = true ->
  lastIncomingSequenceNumber (d w) < UINT_MODULUS ->
  sentTexts (trace (exec (processStanzas (nodes ++ [r])) w)) =
  sentTexts (trace w) ++
  (if streamManagementEnabled (d w)
   then [ack_toXml ((lastIncomingSequenceNumber (d w)
                     + N.of_nat (length (List.filter isCountedStanza nodes)))
                    mod UINT_MODULUS)]
   else []).
Proof.
  intros Hq Hnn Hr Hack Hreq Hlt.
  assert (Forall (fun e => isNull e = false) nodes) as Hnn'
    by (eapply Forall_impl; [exact Hnn|]; intros e [He _]; exact He).
  rewrite processStanzas_app by assumption.
  unfold processStanza at 1. rewrite Hack, Hreq.
  rewrite sendAcknowledgement_sentTexts.
  destruct (processStanzas_quiet nodes w Hq Hnn) as [-> ->].
  rewrite processStanzas_lastIncoming.
  - rewrite filter_forHandler_counted by exact Hnn.
    rewrite iter_uint_incr by exact Hlt. reflexivity.
  - intros e w'. destruct (Hq e w') as [E _]. apply sans_socket_fields in E.
    destruct E as (_ & _ & _ & _ & _ & E). exact E.
  - exact Hnn'.
Qed.

Lemma handleTextMessageReceived_pending text w :
  isWhitespacePing (dataBuffer (d w) +:+ text) = false ->
  setContent (completeXml (set_dataBuffer (dataBuffer (d w) +:+ text) (d w))) = None ->
  handleTextMessageReceived text w =
  (tt, {| d := set_dataBuffer (dataBuffer (d w) +:+ text) (d w); trace := trace w |}).
Proof.
  intros Hping Hparse. unfold handleTextMessageReceived.
  rewrite bind_modify, bind_gets. cbn [d dataBuffer set_dataBuffer]. rewrite Hping.
  rewrite !bind_gets. cbn [d]. rewrite Hparse. reflexivity.
Qed.

Lemma handleTextMessageReceived_parsed text w (documentElement : QDomElement) :
  let p := set_dataBuffer (dataBuffer (d w) +:+ text) (d w) in
  isWhitespacePing (dataBuffer p) = false ->
  setContent (completeXml p) = Some documentElement ->
  handleTextMessageReceived text w =
    (match streamStartMatch p with
     | Some cap0 => modify (set_streamStart cap0) ;;; call_handleStream documentElement
     | None => ret tt
     end ;;;
     processStanzas (childElements documentElement) ;;;
     when (contains_endStreamRegex (dataBuffer p)) disconnectFromHost)%stream
    {| d := set_dataBuffer EmptyString p;
       trace := trace w ++ [Logged ReceivedMessage text] |}.
Proof.
  intros p Hping Hparse. unfold handleTextMessageReceived.
  rewrite bind_modify, bind_gets. cbn [d]. fold p. rewrite Hping.
  rewrite !bind_gets. cbn [d]. rewrite Hparse.
  unfold logReceived. rewrite bind_emit, bind_modify. reflexivity.
Qed.

Lemma string_app_assoc (a b c : string) : (a +:+ b) +:+ c = a +:+ (b +:+ c).
Proof.
  induction a as [|x a IH]; [reflexivity|].
  change (String x ((a +:+ b) +:+ c) = String x (a +:+ (b +:+ c))).
  f_equal. exact IH.
Qed.

(** X12. When the received text completes a document that ends the stream
    (the buffer ends with the closing tag and the document parses), the last
    thing [handleTextMessageReceived] does is [disconnectFromHost]: stream
    management is off afterwards, whatever the handlers did, and the ledger
    and the counters are those the dispatch left. *)
Theorem X12_stream_end_switches_management_off text w (documentElement : QDomElement) :
  let p := set_dataBuffer (dataBuffer (d w) +:+ text) (d w) in
  isWhitespacePing (dataBuffer p) = false ->
  contains_endStreamRegex (dataBuffer p) = true ->
  setContent (completeXml p) = Some documentElement ->
  let dispatchedAll :=
    exec (match streamStartMatch p with
          | Some cap0 => modify (set_streamStart cap0) ;;; call_handleStream documentElement
          | None => ret tt
          end ;;;
          processStanzas (childElements documentElement))%stream
         {| d := set_dataBuffer EmptyString p;
            trace := trace w ++ [Logged ReceivedMessage text] |} in
  exec (handleTextMessageReceived text) w = exec disconnectFromHost dispatchedAll /\
  streamManagementEnabled (d (exec (handleTextMessageReceived text) w)) = false /\
  unacknowledgedStanzas (d (exec (handleTextMessageReceived text) w))
    = unacknowledgedStanzas (d dispatchedAll) /\
  lastOutgoingSequenceNumber (d (exec (handleTextMessageReceived text) w))
    = lastOutgoingSequenceNumber (d dispatchedAll) /\
  lastIncomingSequenceNumber (d (exec (handleTextMessageReceived text) w))
    = lastIncomingSequenceNumber (d dispatchedAll).
Proof.
  intros p Hping Hend Hparse dispatchedAll.
  assert (exec (handleTextMessageReceived text) w = exec disconnectFromHost dispatchedAll) as E.
  { unfold exec at 1. rewrite (handleTextMessageReceived_parsed text w documentElement Hping Hparse).
    fold p. rewrite Hend. cbn [when].
    change (snd (?m ?x)) with (exec m x).
    rewrite exec_bind. unfold dispatchedAll. rewrite (exec_bind _ _ {| d := _; trace := _ |}).
    rewrite exec_bind. reflexivity. }
  split; [exact E|]. rewrite E.
  pose proof (disconnectFromHost_sans_socket dispatchedAll) as F.
  apply sans_socket_fields in F. cbn in F. destruct F as (_ & _ & Fen & Fm & Fout & Fin).
  auto.
Qed.

(** X14. Text that arrives in pieces is put together.  When a first chunk
    leaves the document unparsed, a second chunk is handled on the buffer
    holding both.  If the document still does not parse, the two calls leave
    what one call with the whole text leaves.  If it parses, the two calls
    and the one call continue alike from the same private data, and differ
    only in the text logged as received: the last chunk, not the whole. *)
Theorem X14_chunks_are_put_together (t1 t2 : string) w :
  let p1 := set_dataBuffer (dataBuffer (d w) +:+ t1) (d w) in
  let p2 := set_dataBuffer (dataBuffer (d w) +:+ (t1 +:+ t2)) (d w) in
  isWhitespacePing (dataBuffer p1) = false ->
  setContent (completeXml p1) = None ->
  isWhitespacePing (dataBuffer p2) = false ->
  (setContent (completeXml p2) = None ->
     handleTextMessageReceived t2 (exec (handleTextMessageReceived t1) w)
       = handleTextMessageReceived (t1 +:+ t2) w /\
     exec (handleTextMessageReceived (t1 +:+ t2)) w = {| d := p2; trace := trace w |}) /\
  (forall documentElement,
     setContent (completeXml p2) = Some documentElement ->
     let continue :=
       (match streamStartMatch p2 with
        | Some cap0 => modify (set_streamStart cap0) ;;; call_handleStream documentElement
        | None => ret tt
        end ;;;
        processStanzas (childElements documentElement) ;;;
        when (contains_endStreamRegex (dataBuffer p2)) disconnectFromHost)%stream in
     handleTextMessageReceived t2 (exec (handleTextMessageReceived t1) w)
       = continue {| d := set_dataBuffer EmptyString p2;
                     trace := trace w ++ [Logged ReceivedMessage t2] |} /\
     handleTextMessageReceived (t1 +:+ t2) w
       = continue {| d := set_dataBuffer EmptyString p2;
                     trace := trace w ++ [Logged ReceivedMessage (t1 +:+ t2)] |}).
Proof.
  intros p1 p2 Hping1 Hparse1 Hping2.
  assert (exec (handleTextMessageReceived t1) w = {| d := p1; trace := trace w |}) as E1.
  { unfold exec. rewrite handleTextMessageReceived_pending by assumption. reflexivity. }
  assert (set_dataBuffer (dataBuffer p1 +:+ t2) p1 = p2) as E2.
  { unfold p1, p2. cbn [dataBuffer set_dataBuffer]. rewrite string_app_assoc. reflexivity. }
  assert (dataBuffer p1 +:+ t2 = dataBuffer p2) as E3.
  { unfold p1, p2. cbn [dataBuffer set_dataBuffer]. apply string_app_assoc. }
  rewrite E1. split.
  - intros Hparse2.
    rewrite (handleTextMessageReceived_pending (t1 +:+ t2) w) by assumption.
    rewrite handleTextMessageReceived_pending.
    + cbn [d trace]. rewrite E2. split; [reflexivity|].
      unfold exec. rewrite handleTextMessageReceived_pending by assumption.
      reflexivity.
    + cbn [d]. rewrite E3. exact Hping2.
    + cbn [d]. rewrite E2. exact Hparse2.
  - intros documentElement Hparse2 continue. split.
    + rewrite (handleTextMessageReceived_parsed t2 {| d := p1; trace := trace w |}
                 documentElement).
      * cbn [d trace]. rewrite E2. reflexivity.
      * cbn [d]. rewrite E3. exact Hping2.
      * cbn [d]. rewrite E2. exact Hparse2.
    + rewrite (handleTextMessageReceived_parsed (t1 +:+ t2) w documentElement);
        [reflexivity|exact Hping2|exact Hparse2].
Qed.

End DocumentExtras.

(** ** The end of the stream *)

Section StreamEndExtras.

Lemma append_String (c : ascii) (a b : string) : String c a +:+ b = String c (a +:+ b).
Proof. reflexivity. Qed.

Lemma length_append (a b : string) :
  String.length (a +:+ b) = (String.length a + String.length b)%nat.
Proof.
  induction a as [|c a IH]; [reflexivity|].
  rewrite append_String. cbn [String.length]. rewrite IH. reflexivity.
Qed.

Lemma substring_all (s : string) : substring 0 (String.length s) s = s.
Proof. induction s as [|c s IH]; [reflexivity|]. cbn. rewrite IH. reflexivity. Qed.

Lemma substring_after_prefix (pre suffix : string) :
  substring (String.length pre) (String.length suffix) (pre +:+ suffix) = suffix.
Proof.
  induction pre as [|c pre IH]; [apply substring_all|].
  rewrite append_String. cbn. exact IH.
Qed.

Lemma substring_split (s : string) (i : nat) :
  (i <= String.length s)%nat ->
  s = substring 0 i s +:+ substring i (String.length s - i) s.
Proof.
  revert i. induction s as [|c s IH]; intros i Hi.
  - cbn in Hi. assert (i = 0%nat) as -> by lia. reflexivity.
  - destruct i as [|i].
    + cbn. rewrite substring_all. reflexivity.
    + cbn in Hi. cbn [String.length substring Nat.sub]. rewrite append_String.
      f_equal. apply IH. lia.
Qed.

Lemma endsWith_spec (suffix s : string) :
  endsWith suffix s = true <-> exists pre, s = pre +:+ suffix.
Proof.
  unfold endsWith. rewrite andb_true_iff, Nat.leb_le, String.eqb_eq. split.
  - intros [Hle Hs]. exists (substring 0 (String.length s - String.length suffix) s).
    pose proof (substring_split s (String.length s - String.length suffix)) as E.
    replace (String.length s - (String.length s - String.length suffix))%nat
      with (String.length suffix) in E by lia.
    rewrite Hs in E. apply E. lia.
  - intros [pre ->]. rewrite length_append. split; [lia|].
    replace (String.length pre + String.length suffix - String.length suffix)%nat
      with (String.length pre) by lia.
    apply substring_after_prefix.
Qed.

(** X15. The end of the stream is seen exactly when the buffer ends with
    the closing tag of the stream, character for character; only then is no
    closing tag added to the document given to the parser. *)
Theorem X15_stream_end_is_the_closing_tag_at_the_very_end
    {Sock : Type} `{!XmlOps} (p : QXmppStreamPrivate Sock) :
  (contains_endStreamRegex (dataBuffer p) = true
   <-> exists before, dataBuffer p = before +:+ streamRootElementEnd) /\
  (exists before, completeXml p = before +:+ streamRootElementEnd).
Proof.
  split; [apply endsWith_spec|].
  unfold completeXml.
  destruct (contains_endStreamRegex (dataBuffer p)) eqn:E.
  - apply endsWith_spec in E. destruct E as [before E].
    destruct (streamStartMatch p).
    + exists before. exact E.
    + exists (streamStart p +:+ before). rewrite E. symmetry. apply string_app_assoc.
  - eexists. reflexivity.
Qed.

End StreamEndExtras.

Section DisconnectExtras.

Context {Sock : Type} `{!SocketOps Sock} `{!StreamManagementFrames}.

Implicit Types (w : QXmppStream Sock) (text : string) (p : QXmppStanza).

(** X13. What [disconnectFromHost] asks of the socket.  Without a socket
    it only clears the flag.  With a socket that is not connected it sends
    and flushes nothing and asks the socket to disconnect.  With a connected
    socket it sends the closing tag, flushes, and asks the socket to
    disconnect, in this order; the flush and the disconnect follow whether
    or not the socket took the closing tag. *)
Theorem X13_disconnect_by_socket_state w :
  (socket (d w) = None ->
     exec disconnectFromHost w =
     {| d := set_streamManagementEnabled false (d w); trace := trace w |}) /\
  (forall sk, socket (d w) = Some sk -> sock_isConnected sk = false ->
     exec disconnectFromHost w =
     {| d := set_socket (Some (sock_disconnectFromHost sk))
               (set_streamManagementEnabled false (d w));
        trace := trace w ++ [SocketDisconnectFromHost] |}) /\
  (forall sk, socket (d w) = Some sk -> sock_isConnected sk = true ->
     exec disconnectFromHost w =
     {| d := set_socket
               (Some (sock_disconnectFromHost
                        (sock_flush (sock_sendTextMessage streamRootElementEnd sk).2)))
               (set_streamManagementEnabled false (d w));
        trace := trace w ++ [Logged SentMessage streamRootElementEnd;
                             SocketSendTextMessage streamRootElementEnd;
                             SocketFlush;
                             SocketDisconnectFromHost] |}).
Proof.
  split; [|split].
  - intros Hs. unfold disconnectFromHost.
    rewrite exec_bind, exec_modify, exec_bind, eval_gets, exec_gets. cbn [d socket set_streamManagementEnabled].
    rewrite Hs. reflexivity.
  - intros sk Hs Hc. unfold disconnectFromHost.
    rewrite exec_bind, exec_modify, exec_bind, eval_gets, exec_gets. cbn [d socket set_streamManagementEnabled].
    rewrite Hs, Hc. rewrite exec_bind, exec_ret. unfold onSocket.
    rewrite exec_bind, eval_gets, exec_gets. cbn [d socket set_streamManagementEnabled].
    rewrite Hs. reflexivity.
  - intros sk Hs Hc. unfold disconnectFromHost.
    rewrite exec_bind, exec_modify, exec_bind, eval_gets, exec_gets. cbn [d socket set_streamManagementEnabled].
    rewrite Hs, Hc. unfold onSocket, sendData, logSent.
    unfold exec, bind, gets, modify, emit, ret. cbn. rewrite Hs, Hc. cbn.
    destruct (sock_sendTextMessage streamRootElementEnd sk) as [ok sk1]. cbn.
    rewrite <- !app_assoc. reflexivity.
Qed.

(** X16. The outgoing counter is a 32-bit number.  A registered stanza
    always gets a number below 2^32; from the last value, 2^32 - 1, the next
    stanza gets the number 0, and acknowledging 0 then removes this newest
    entry and leaves the older ones of a numbered ledger in place. *)
Theorem X16_outgoing_counter_wraps_to_zero p w :
  streamManagementEnabled (d w) = true ->
  isXmppStanza p = true ->
  let sent := exec (sendPacket p) w in
  lastOutgoingSequenceNumber (d sent) < UINT_MODULUS /\
  (lastOutgoingSequenceNumber (d w) = UINT_MODULUS - 1 ->
     lastOutgoingSequenceNumber (d sent) = 0 /\
     unacknowledgedStanzas (d sent) !! 0 = Some (toXml p) /\
     (ledger_numbered (d w) ->
      unacknowledgedStanzas (d (exec (setAcknowledgedSequenceNumber 0) sent))
      = unacknowledgedStanzas (d w))).
Proof.
  intros Hen Hp sent.
  pose proof (sendPacket_registered p w Hp Hen) as E.
  apply sans_socket_fields in E. cbn in E. fold sent in E.
  destruct E as (_ & _ & _ & Em & Eout & _).
  split; [rewrite Eout; apply uint_incr_lt|].
  intros Hlast.
  assert (uint_incr (lastOutgoingSequenceNumber (d w)) = 0) as Hz
    by (rewrite Hlast; reflexivity).
  rewrite Hz in Em, Eout. split; [exact Eout|].
  split; [rewrite Em; apply lookup_insert_eq|].
  intros Hn. apply map_eq. intros k.
  rewrite setAcknowledgedSequenceNumber_lookup, Em.
  case_decide as Hd.
  - assert (k = 0) as -> by lia. symmetry. apply ledger_numbered_no_zero. exact Hn.
  - rewrite lookup_insert_ne by lia. reflexivity.
Qed.

End DisconnectExtras.

Section AcknowledgementDocument.

Context {Sock : Type} `{!SocketOps Sock} `{!XmlOps} `{!QStringOps}
        `{!StreamManagementFrames} `{!StreamHandlers Sock}.

Implicit Types (w : QXmppStream Sock) (text : string).

(** X17. An acknowledgement from the wire.  On an open stream (the start
    of the stream captured), when the received text completes a document
    whose only child is an acknowledgement and which does not end the
    stream: the text is logged as received, the buffer is emptied, and the
    ledger keeps the entries above the number the acknowledgement carries --
    or all of them when stream management is off.  No handler is called and
    nothing is sent. *)
Theorem X17_received_acknowledgement_trims_the_ledger text w
    (documentElement a : QDomElement) :
  let p := set_dataBuffer (dataBuffer (d w) +:+ text) (d w) in
  isWhitespacePing (dataBuffer p) = false ->
  isEmpty (streamStart (d w)) = false ->
  contains_endStreamRegex (dataBuffer p) = false ->
  setContent (streamStart (d w) +:+ dataBuffer p +:+ streamRootElementEnd)
    = Some documentElement ->
  childElements documentElement = [a] ->
  isNull a = false ->
  isStreamManagementAck a = true ->
  handleTextMessageReceived text w =
  (tt,
   {| d := set_unacknowledgedStanzas
             (if streamManagementEnabled (d w)
              then filter (fun kv => ack_seqNo a < kv.1) (unacknowledgedStanzas (d w))
              else unacknowledgedStanzas (d w))
             (set_dataBuffer EmptyString (d w));
      trace := trace w ++ [Logged ReceivedMessage text] |}).
Proof.
  intros p Hping Hstart Hend Hparse Hchildren Hnull Hack.
  assert (streamStartMatch p = None) as Hm.
  { unfold streamStartMatch, p. cbn [streamStart set_dataBuffer]. rewrite Hstart.
    reflexivity. }
  assert (completeXml p = streamStart (d w) +:+ dataBuffer p +:+ streamRootElementEnd) as Hx.
  { unfold completeXml. rewrite Hm, Hend. unfold p at 1. cbn [streamStart set_dataBuffer].
    apply string_app_assoc. }
  assert (setContent (completeXml p) = Some documentElement) as Hparse'
    by (rewrite Hx; exact Hparse).
  rewrite (handleTextMessageReceived_parsed text w documentElement Hping Hparse').
  fold p. rewrite Hm, Hend, Hchildren. cbn [when].
  set (w0 := {| d := set_dataBuffer EmptyString p; trace := _ |}).
  rewrite (run_pair _ w0). f_equal; [destruct (eval _ w0); reflexivity|].
  rewrite !exec_bind, !exec_ret.
  rewrite processStanzas_cons by exact Hnull. cbn [processStanzas]. rewrite exec_ret.
  unfold processStanza. rewrite Hack, handleAcknowledgement_exec.
  unfold w0. cbn [d streamManagementEnabled set_dataBuffer]. unfold p.
  cbn [streamManagementEnabled set_dataBuffer].
  destruct (streamManagementEnabled (d w)) eqn:Hen.
  - rewrite setAcknowledgedSequenceNumber_exec. cbn. unfold set_unacknowledgedStanzas.
    cbn. rewrite Hen. reflexivity.
  - unfold set_unacknowledgedStanzas, set_dataBuffer. cbn. rewrite Hen. reflexivity.
Qed.

End AcknowledgementDocument.

(** ** The properties on the sample instantiation *)

Section Examples.

Import Sample.

(** C1 as the specification words it does not hold: on a fresh stream, where
    stream management is off, a message element that is neither an
    acknowledgement nor a request moves the incoming counter from 0 to 1. *)
Lemma C1_message_counted_while_management_off :
  streamManagementEnabled (d (streamOn online)) = false /\
  isStreamManagementAck message = false /\
  isStreamManagementReq message = false /\
  isCountedStanza message = true /\
  lastIncomingSequenceNumber (d (streamOn online)) = 0 /\
  lastIncomingSequenceNumber (d (exec (processStanza message) (streamOn online))) = 1 /\
  lastIncomingSequenceNumber (d (exec (processStanza message) (streamOn online)))
    <> lastIncomingSequenceNumber (d (streamOn online)) /\
  lastIncomingSequenceNumber
    (d (exec (handleTextMessageReceived (streamOpen +:+ "<message/>")) (streamOn online))) = 1 /\
  dispatched
    (trace (exec (handleTextMessageReceived (streamOpen +:+ "<message/>")) (streamOn online)))
    = [message].
Proof. vm_compute. repeat split; try reflexivity. discriminate. Qed.

Lemma C1_witness :
  isStreamManagementAck message = false /\
  isStreamManagementReq message = false /\
  lastIncomingSequenceNumber (d (exec (processStanza message) busy)) = 5 /\
  (lastIncomingSequenceNumber (d (exec (processStanza features) busy))
     <> lastIncomingSequenceNumber (d (exec (call_handleStanza features) busy))
   <-> isCountedStanza features = true).
Proof.
  split; [reflexivity|]. split; [reflexivity|].
  pose proof (C1_incoming_counter_follows_tag_name busy message eq_refl eq_refl) as Hm.
  pose proof (C1_incoming_counter_follows_tag_name busy features eq_refl eq_refl) as Hf.
  cbn zeta in Hm, Hf. destruct Hm as (Hm & _). destruct Hf as (_ & _ & Hf).
  split; [|exact Hf]. rewrite (Hm eq_refl). reflexivity.
Defined.

(** C2 as the specification words it does not hold.  After the outgoing
    counter has wrapped around, the newest stanza sits under the number 0, and
    acknowledging 0 removes it, through [setAcknowledgedSequenceNumber] as
    through an acknowledgement frame.  And [setAcknowledgedSequenceNumber]
    removes entries while stream management is off. *)
Lemma C2_acknowledging_zero_or_while_disabled_removes_entries :
  lastOutgoingSequenceNumber (d exhausted) = 4294967295 /\
  streamManagementEnabled (d (exec (sendPacket chat) exhausted)) = true /\
  unacknowledgedStanzas (d (exec (sendPacket chat) exhausted))
    = {[0 := "<message/>"; 4294967295 := "<iq/>"]} /\
  unacknowledgedStanzas
    (d (exec (setAcknowledgedSequenceNumber 0) (exec (sendPacket chat) exhausted)))
    = {[4294967295 := "<iq/>"]} /\
  unacknowledgedStanzas
    (d (exec (handleAcknowledgement (ack "0")) (exec (sendPacket chat) exhausted)))
    = {[4294967295 := "<iq/>"]} /\
  exec (setAcknowledgedSequenceNumber 0) (exec (sendPacket chat) exhausted)
    <> exec (sendPacket chat) exhausted /\
  streamManagementEnabled (d (streamWith online false ledger357 7 0)) = false /\
  unacknowledgedStanzas (d (streamWith online false ledger357 7 0))
    = {[3 := "<message/>"; 5 := "<iq/>"; 7 := "<presence/>"]} /\
  unacknowledgedStanzas
    (d (exec (setAcknowledgedSequenceNumber 5) (streamWith online false ledger357 7 0)))
    = {[7 := "<presence/>"]} /\
  exec (setAcknowledgedSequenceNumber 5) (streamWith online false ledger357 7 0)
    <> streamWith online false ledger357 7 0.
Proof.
  repeat split; try (vm_compute; reflexivity).
  - intros E. apply (f_equal (fun w => unacknowledgedStanzas (d w) !! 0)) in E.
    vm_compute in E. discriminate E.
  - intros E. apply (f_equal (fun w => unacknowledgedStanzas (d w) !! 3)) in E.
    vm_compute in E. discriminate E.
Qed.

Lemma C2_witness :
  streamManagementEnabled (d (streamWith online true ledger357 7 0)) = true /\
  unacknowledgedStanzas (d (streamWith online true ledger357 7 0)) !! 0 = None /\
  streamManagementEnabled (d (streamWith online false ledger357 7 0)) = false /\
  unacknowledgedStanzas
    (d (exec (handleAcknowledgement (ack "5")) (streamWith online true ledger357 7 0)))
    = {[7 := "<presence/>"]} /\
  exec (setAcknowledgedSequenceNumber 0) (streamWith online true ledger357 7 0)
    = streamWith online true ledger357 7 0 /\
  exec (handleAcknowledgement (ack "5")) (streamWith online false ledger357 7 0)
    = streamWith online false ledger357 7 0.
Proof.
  split; [reflexivity|]. split; [reflexivity|]. split; [reflexivity|].
  pose proof (C2_acknowledge_filters_the_ledger
                (streamWith online true ledger357 7 0) 5 (ack "5")) as Hon.
  pose proof (C2_acknowledge_filters_the_ledger
                (streamWith online false ledger357 7 0) 5 (ack "5")) as Hoff.
  destruct Hon as (H1 & _ & _ & H4 & H5 & _). destruct Hoff as (_ & _ & _ & _ & _ & H6).
  split; [|split].
  - rewrite (H5 eq_refl).
    change (ack_seqNo (ack "5")) with 5. rewrite H1. vm_compute. reflexivity.
  - apply H4. reflexivity.
  - exact (H6 eq_refl).
Defined.

Lemma C3_witness :
  streamManagementEnabled (d (streamWith offline true ∅ 0 0)) = true /\
  isXmppStanza chat = true /\
  eval isConnected (streamWith offline true ∅ 0 0) = false /\
  eval (sendPacket chat) (streamWith offline true ∅ 0 0) = false /\
  unacknowledgedStanzas (d (exec (sendPacket chat) (streamWith offline true ∅ 0 0))) !! 1
    = Some "<message/>" /\
  lastOutgoingSequenceNumber (d (exec (sendPacket chat) (streamWith offline true ∅ 0 0))) = 1.
Proof.
  split; [reflexivity|]. split; [reflexivity|]. split; [reflexivity|].
  pose proof (C3_registered_before_sent_and_kept_on_failure
                (streamWith offline true ∅ 0 0) chat eq_refl eq_refl) as H.
  cbn zeta in H. destruct H as (_ & _ & H3 & H4 & H5 & _).
  split; [exact (H5 eq_refl)|]. split; [exact H3|exact H4].
Defined.


Lemma C5_witness :
  unacknowledgedStanzas (d (streamWith online false ledger357 7 5))
    = <[3 := "<message/>"]> (<[5 := "<iq/>"]> (<[7 := "<presence/>"]> ∅)) /\
  unacknowledgedStanzas (d (exec (enableStreamManagement true) (streamWith online false ledger357 7 5)))
    = <[1 := "<message/>"]> (<[2 := "<iq/>"]> (<[3 := "<presence/>"]> ∅)) /\
  lastOutgoingSequenceNumber
    (d (exec (enableStreamManagement true) (streamWith online false ledger357 7 5))) = 3 /\
  lastIncomingSequenceNumber
    (d (exec (enableStreamManagement true) (streamWith online false ledger357 7 5))) = 0 /\
  sentTexts (trace (exec (enableStreamManagement true) (streamWith online false ledger357 7 5)))
    = ["<message/>"; "<iq/>"; "<presence/>"; "<r xmlns='urn:xmpp:sm:3'/>"] /\
  unacknowledgedStanzas (d (exec (enableStreamManagement false) (streamWith online false ledger357 7 5)))
    = ledger357 /\
  sentTexts (trace (exec (enableStreamManagement false) (streamWith online false ledger357 7 5)))
    = ["<message/>"; "<iq/>"; "<presence/>"; "<r xmlns='urn:xmpp:sm:3'/>"] /\
  wireTexts (trace (exec (enableStreamManagement false) (streamWith online false ledger357 7 5)))
    = ["<message/>"; "<iq/>"; "<presence/>"; "<r xmlns='urn:xmpp:sm:3'/>"].
Proof.
  split; [reflexivity|].
  pose proof (C5_enable_on_ledger_3_5_7
                (streamWith online false ledger357 7 5)
                "<message/>" "<iq/>" "<presence/>" eq_refl) as H.
  cbn zeta in H.
  destruct H as (_ & _ & H3 & H4 & H5 & H6 & _ & H8 & _ & _ & H11).
  split; [exact H5|]. split; [exact H4|]. split; [exact H3|].
  split; [exact H6|]. split; [exact H8|]. split; [exact H11|].
  vm_compute. reflexivity.
Defined.

Lemma C6_witness :
  unacknowledgedStanzas (d (streamWith online false ∅ 4 2)) = ∅ /\
  streamManagementEnabled (d (exec (enableStreamManagement true) (streamWith online false ∅ 4 2)))
    = true /\
  trace (exec (enableStreamManagement true) (streamWith online false ∅ 4 2)) = [] /\
  lastOutgoingSequenceNumber
    (d (exec (enableStreamManagement false) (streamWith online false ∅ 4 2))) = 4.
Proof.
  split; [reflexivity|].
  pose proof (C6_enable_on_empty_ledger true (streamWith online false ∅ 4 2) eq_refl) as Ht.
  pose proof (C6_enable_on_empty_ledger false (streamWith online false ∅ 4 2) eq_refl) as Hf.
  cbn zeta in Ht, Hf.
  destruct Ht as (H1 & H2 & _). destruct Hf as (_ & _ & _ & _ & _ & _ & H7 & _).
  split; [exact H1|]. split; [exact H2|exact H7].
Defined.

Lemma C7_witness :
  isEmpty (dataBuffer (d (streamOn online)) +:+ "  ") = false /\
  isEmpty (trimmed (dataBuffer (d (streamOn online)) +:+ "  ")) = true /\
  handleTextMessageReceived "  " (streamOn online)
    = (tt, {| d := d (streamOn online); trace := [CalledHandleStanza DomNull] |}).
Proof.
  split; [reflexivity|]. split; [reflexivity|].
  pose proof (C7_whitespace_is_a_ping (streamOn online) "  " eq_refl eq_refl) as H.
  cbn zeta in H. destruct H as (H1 & _). rewrite H1. reflexivity.
Defined.

Lemma C8_witness :
  isWhitespacePing (dataBuffer (d busy) +:+ "age>") = false /\
  setContent (completeXml (set_dataBuffer (dataBuffer (d busy) +:+ "age>") (d busy))) = None /\
  handleTextMessageReceived "age>" busy
    = (tt, {| d := set_dataBuffer "<message>" (d busy); trace := [] |}).
Proof.
  split; [reflexivity|]. split; [reflexivity|].
  pose proof (C8_failed_parse_keeps_the_buffer busy "age>" eq_refl) as H.
  cbn zeta in H. destruct H as (H1 & _). rewrite (H1 eq_refl). reflexivity.
Defined.

Lemma C9_witness :
  socket (d busy) = Some online /\
  (exists w1, _q_socketConnected busy = Some w1 /\
              dataBuffer (d w1) = EmptyString /\
              streamStart (d w1) = EmptyString /\
              streamManagementEnabled (d w1) = false /\
              unacknowledgedStanzas (d w1) = {[1 := "<presence/>"]} /\
              lastOutgoingSequenceNumber (d w1) = 1 /\
              lastIncomingSequenceNumber (d w1) = 4).
Proof.
  split; [reflexivity|].
  pose proof (C9_reconnect_resets_buffer_keeps_ledger busy) as H.
  cbn zeta in H. destruct H as (H & _). destruct (H online eq_refl) as (w1 & H1 & H2).
  exists w1. split; [exact H1|]. rewrite H2. repeat split.
Defined.

Lemma C10_witness :
  isXmppStanza chat = true /\
  streamManagementEnabled (d (exec disconnectFromHost busy)) = false /\
  unacknowledgedStanzas (d (exec (sendPacket chat) (exec disconnectFromHost busy)))
    = {[1 := "<presence/>"]} /\
  lastOutgoingSequenceNumber (d (exec (sendPacket chat) (exec disconnectFromHost busy))) = 1.
Proof.
  split; [reflexivity|].
  pose proof (C10_disconnect_switches_management_off busy chat false eq_refl) as H.
  cbn zeta in H. destruct H as (H1 & _ & _ & _ & _ & H6 & H7 & _).
  split; [exact H1|]. split; [exact H6|exact H7].
Defined.

(** A session: the stream opens, stream management is enabled, a message is
    sent and numbered 1, and the acknowledgement of 1 empties the ledger. *)
Example session_acknowledged :
  let opened := exec (handleTextMessageReceived streamOpen) (streamOn online) in
  let enabled := exec (enableStreamManagement true) opened in
  let sent := exec (sendPacket chat) enabled in
  let acked := exec (handleTextMessageReceived "<a xmlns='urn:xmpp:sm:3' h='1'/>") sent in
  streamStart (d opened) = streamOpen /\
  trace opened = [Logged ReceivedMessage streamOpen; CalledHandleStream (root [])] /\
  eval (sendPacket chat) enabled = true /\
  unacknowledgedStanzas (d sent) = {[1 := "<message/>"]} /\
  wireTexts (trace sent) = ["<message/>"; "<r xmlns='urn:xmpp:sm:3'/>"] /\
  unacknowledgedStanzas (d acked) = ∅ /\
  dataBuffer (d acked) = EmptyString.
Proof. vm_compute. repeat split. Qed.

(** A document that ends the stream: the message is dispatched first, then
    the closing tag is sent, the socket flushed and disconnected. *)
Example stream_end_after_dispatch :
  let opened := exec (handleTextMessageReceived streamOpen) (streamOn online) in
  let closed := exec (handleTextMessageReceived "<message/></stream:stream>") opened in
  trace closed =
    trace opened ++
    [Logged ReceivedMessage "<message/></stream:stream>";
     CalledHandleStanza message;
     Logged SentMessage "</stream:stream>";
     SocketSendTextMessage "</stream:stream>";
     SocketFlush;
     SocketDisconnectFromHost] /\
  lastIncomingSequenceNumber (d closed) = 1 /\
  eval isConnected closed = false.
Proof. vm_compute. repeat split. Qed.

End Examples.

(** ** The further properties on the sample instantiation *)

Section ExtraExamples.

Import Sample.

Lemma busy_numbered : ledger_numbered (d busy).
Proof.
  intros k v Hk. cbn in Hk. apply lookup_singleton_Some in Hk. destruct Hk as [<- _].
  cbn. lia.
Qed.

Lemma exhausted_numbered : ledger_numbered (d exhausted).
Proof.
  intros k v Hk. cbn in Hk. apply lookup_singleton_Some in Hk. destruct Hk as [<- _].
  cbn. lia.
Qed.

Lemma X1_witness :
  isXmppStanza chat && streamManagementEnabled (d (streamOn online)) = false /\
  sendPacket chat (streamOn online) = sendData "<message/>" (streamOn online) /\
  isXmppStanza nonza && streamManagementEnabled (d busy) = false /\
  sendPacket nonza busy = sendData "<starttls/>" busy.
Proof.
  split; [reflexivity|].
  split; [exact (X1_unmanaged_sendPacket_is_sendData chat (streamOn online) eq_refl)|].
  split; [reflexivity|].
  exact (X1_unmanaged_sendPacket_is_sendData nonza busy eq_refl).
Defined.

Lemma X2_witness :
  streamManagementEnabled (d (streamWith offline true ∅ 0 0)) = true /\
  isXmppStanza chat = true /\
  eval isConnected (streamWith offline true ∅ 0 0) = false /\
  sentTexts (trace (exec (sendPacket chat) (streamWith offline true ∅ 0 0)))
    = ["<message/>"; "<r xmlns='urn:xmpp:sm:3'/>"] /\
  wireTexts (trace (exec (sendPacket chat) (streamWith offline true ∅ 0 0))) = [] /\
  eval (sendPacket chat) (streamWith offline true ∅ 0 0) = false.
Proof.
  split; [reflexivity|]. split; [reflexivity|]. split; [reflexivity|].
  pose proof (X2_managed_stanza_is_followed_by_one_request
                chat (streamWith offline true ∅ 0 0) eq_refl eq_refl) as [H1 H2].
  destruct (H2 eq_refl) as (H3 & H4 & _).
  split; [exact H1|]. split; [exact H3|exact H4].
Defined.

Lemma X4_witness :
  streamManagementEnabled (d busy) = true /\
  isXmppStanza chat = true /\
  ledger_numbered (d busy) /\
  lastOutgoingSequenceNumber (d busy) + 1 < UINT_MODULUS /\
  unacknowledgedStanzas
    (d (exec (setAcknowledgedSequenceNumber 1) (exec (sendPacket chat) busy)))
    = {[2 := "<message/>"]} /\
  unacknowledgedStanzas
    (d (exec (setAcknowledgedSequenceNumber
                (lastOutgoingSequenceNumber (d (exec (sendPacket chat) busy))))
             (exec (sendPacket chat) busy)))
    = ∅.
Proof.
  split; [reflexivity|]. split; [reflexivity|]. split; [exact busy_numbered|].
  assert (lastOutgoingSequenceNumber (d busy) + 1 < UINT_MODULUS) as Hlt
    by (vm_compute; reflexivity).
  split; [exact Hlt|].
  pose proof (X4_send_then_acknowledge chat busy eq_refl eq_refl busy_numbered Hlt) as H.
  cbn zeta in H. destruct H as (_ & H2 & H3). split; [exact H2|exact H3].
Defined.

Lemma X5_witness :
  ledger_numbered (d busy) /\
  lastOutgoingSequenceNumber (d busy) + 1 < UINT_MODULUS /\
  N.of_nat (length (QMap_items (unacknowledgedStanzas (d busy)))) < UINT_MODULUS /\
  ledger_numbered (d (exec (sendPacket chat) busy)) /\
  ledger_numbered (d (exec (enableStreamManagement true) busy)) /\
  unacknowledgedStanzas (d busy) !! 0 = None.
Proof.
  split; [exact busy_numbered|].
  assert (lastOutgoingSequenceNumber (d busy) + 1 < UINT_MODULUS) as Hlt
    by (vm_compute; reflexivity).
  assert (N.of_nat (length (QMap_items (unacknowledgedStanzas (d busy)))) < UINT_MODULUS)
    as Hsz by (vm_compute; reflexivity).
  split; [exact Hlt|]. split; [exact Hsz|].
  pose proof (X5_ledger_numbering_is_kept busy chat 0 (ack "1") true busy_numbered) as H.
  destruct H as (_ & H2 & _ & _ & _ & _ & H7 & H8 & _).
  split; [exact (H2 Hlt)|]. split; [exact (H7 Hsz)|exact H8].
Defined.

Lemma X7_witness :
  N.of_nat (length (map snd (QMap_items
     (unacknowledgedStanzas (d (streamWith online false ledger357 7 5)))))) < UINT_MODULUS /\
  QMap_items (unacknowledgedStanzas
     (d (exec (enableStreamManagement true) (streamWith online false ledger357 7 5))))
    = [(1, "<message/>"); (2, "<iq/>"); (3, "<presence/>")] /\
  lastOutgoingSequenceNumber
     (d (exec (enableStreamManagement true) (streamWith online false ledger357 7 5))) = 3.
Proof.
  assert (N.of_nat (length (map snd (QMap_items
            (unacknowledgedStanzas (d (streamWith online false ledger357 7 5))))))
          < UINT_MODULUS) as Hlt by (vm_compute; reflexivity).
  split; [exact Hlt|].
  pose proof (X7_enable_with_reset_renumbers_from_one
                (streamWith online false ledger357 7 5) Hlt) as H.
  cbn zeta in H. destruct H as (H1 & H2 & _).
  split; [rewrite H1; vm_compute; reflexivity|rewrite H2; vm_compute; reflexivity].
Defined.

Lemma X8_witness :
  streamManagementEnabled (d busy) = true /\
  ledger_numbered (d busy) /\
  lastOutgoingSequenceNumber (d busy)
    + N.of_nat (length (List.filter isXmppStanza [chat; nonza; chat2])) < UINT_MODULUS /\
  map snd (QMap_items (unacknowledgedStanzas (d (sendPackets [chat; nonza; chat2] busy))))
    = ["<presence/>"; "<message/>"; "<iq/>"] /\
  sentTexts (trace (exec (enableStreamManagement false)
                         (exec handleStart (sendPackets [chat; nonza; chat2] busy))))
    = sentTexts (trace (sendPackets [chat; nonza; chat2] busy))
      ++ ["<presence/>"; "<message/>"; "<iq/>"; "<r xmlns='urn:xmpp:sm:3'/>"].
Proof.
  split; [reflexivity|]. split; [exact busy_numbered|].
  assert (lastOutgoingSequenceNumber (d busy)
          + N.of_nat (length (List.filter isXmppStanza [chat; nonza; chat2]))
          < UINT_MODULUS) as Hlt by (vm_compute; reflexivity).
  split; [exact Hlt|].
  pose proof (X8_unacknowledged_stanzas_are_resent_in_send_order
                busy [chat; nonza; chat2] eq_refl busy_numbered Hlt) as H.
  cbn zeta in H. destruct H as (H1 & H2 & _).
  split; [rewrite H1; vm_compute; reflexivity|].
  rewrite H2. f_equal.
Defined.

Lemma X9_witness :
  (forall e w', lastIncomingSequenceNumber (d (exec (handleStanza e) w'))
                = lastIncomingSequenceNumber (d w')) /\
  Forall (fun e => isNull e = false) [message; ack "1"; features; message; request] /\
  lastIncomingSequenceNumber (d busy) < UINT_MODULUS /\
  lastIncomingSequenceNumber
    (d (exec (processStanzas [message; ack "1"; features; message; request]) busy)) = 6.
Proof.
  assert (Forall (fun e => isNull e = false)
                 [message; ack "1"; features; message; request]) as Hnn
    by (repeat constructor).
  assert (lastIncomingSequenceNumber (d busy) < UINT_MODULUS) as Hlt
    by (vm_compute; reflexivity).
  assert (forall (e : QDomElement) (w' : QXmppStream Socket),
            lastIncomingSequenceNumber (d (exec (handleStanza e) w'))
            = lastIncomingSequenceNumber (d w')) as Hh
    by (intros e w'; reflexivity).
  split; [exact Hh|]. split; [exact Hnn|]. split; [exact Hlt|].
  rewrite (X9_incoming_counter_counts_the_stanzas_of_a_document
             [message; ack "1"; features; message; request] busy Hh Hnn Hlt).
  vm_compute. reflexivity.
Defined.

Lemma X10_witness :
  (forall e w', dispatched (trace (exec (handleStanza e) w')) = dispatched (trace w')) /\
  Forall (fun e => isNull e = false) [message; ack "1"; features; request; message] /\
  dispatched (trace (exec (processStanzas [message; ack "1"; features; request; message]) busy))
    = [message; features; message].
Proof.
  assert (Forall (fun e => isNull e = false)
                 [message; ack "1"; features; request; message]) as Hnn
    by (repeat constructor).
  assert (forall (e : QDomElement) (w' : QXmppStream Socket),
            dispatched (trace (exec (handleStanza e) w')) = dispatched (trace w')) as Hh
    by (intros e w'; reflexivity).
  split; [exact Hh|]. split; [exact Hnn|].
  rewrite (X10_children_are_dispatched_in_document_order
             [message; ack "1"; features; request; message] busy Hh Hnn).
  reflexivity.
Defined.

Lemma X11_witness :
  (forall e w', sans_socket (d (exec (handleStanza e) w')) = sans_socket (d w') /\
                sentTexts (trace (exec (handleStanza e) w')) = sentTexts (trace w')) /\
  Forall (fun e => isNull e = false /\ isForHandler e = true) [message; features; message] /\
  isNull request = false /\
  isStreamManagementAck request = false /\
  isStreamManagementReq request = true /\
  lastIncomingSequenceNumber (d busy) < UINT_MODULUS /\
  sentTexts (trace (exec (processStanzas ([message; features; message] ++ [request])) busy))
    = ["<a xmlns='urn:xmpp:sm:3' h='6'/>"].
Proof.
  assert (Forall (fun e => isNull e = false /\ isForHandler e = true)
                 [message; features; message]) as Hnn
    by (repeat constructor).
  assert (lastIncomingSequenceNumber (d busy) < UINT_MODULUS) as Hlt
    by (vm_compute; reflexivity).
  assert (forall (e : QDomElement) (w' : QXmppStream Socket),
            sans_socket (d (exec (handleStanza e) w')) = sans_socket (d w') /\
            sentTexts (trace (exec (handleStanza e) w')) = sentTexts (trace w')) as Hh
    by (intros e w'; split; reflexivity).
  split; [exact Hh|]. split; [exact Hnn|].
  split; [reflexivity|]. split; [reflexivity|]. split; [reflexivity|].
  split; [exact Hlt|].
  rewrite (X11_request_is_answered_with_the_count_so_far
             [message; features; message] request busy
             Hh Hnn eq_refl eq_refl eq_refl Hlt).
  vm_compute. reflexivity.
Defined.

Lemma X12_witness :
  isWhitespacePing (dataBuffer (d established) +:+ "<message/></stream:stream>") = false /\
  contains_endStreamRegex (dataBuffer (d established) +:+ "<message/></stream:stream>") = true /\
  setContent (completeXml (set_dataBuffer
                (dataBuffer (d established) +:+ "<message/></stream:stream>")
                (d established))) = Some (root [message]) /\
  streamManagementEnabled
    (d (exec (handleTextMessageReceived "<message/></stream:stream>") established)) = false /\
  unacknowledgedStanzas
    (d (exec (handleTextMessageReceived "<message/></stream:stream>") established))
    = {[1 := "<presence/>"; 2 := "<iq/>"]}.
Proof.
  split; [reflexivity|]. split; [reflexivity|]. split; [reflexivity|].
  pose proof (X12_stream_end_switches_management_off
                "<message/></stream:stream>" established (root [message])
                eq_refl eq_refl eq_refl) as H.
  cbn zeta in H. destruct H as (_ & H2 & H3 & _).
  split; [exact H2|]. rewrite H3. vm_compute. reflexivity.
Defined.

Lemma X13_witness :
  socket (d (@QXmppStream_new Socket)) = None /\
  socket (d (streamOn offline)) = Some offline /\
  sock_isConnected offline = false /\
  socket (d busy) = Some online /\
  sock_isConnected online = true /\
  trace (exec disconnectFromHost (@QXmppStream_new Socket)) = [] /\
  trace (exec disconnectFromHost (streamOn offline)) = [SocketDisconnectFromHost] /\
  trace (exec disconnectFromHost busy)
    = [Logged SentMessage "</stream:stream>"; SocketSendTextMessage "</stream:stream>";
       SocketFlush; SocketDisconnectFromHost].
Proof.
  split; [reflexivity|]. split; [reflexivity|]. split; [reflexivity|].
  split; [reflexivity|]. split; [reflexivity|].
  destruct (X13_disconnect_by_socket_state (@QXmppStream_new Socket)) as (H1 & _ & _).
  destruct (X13_disconnect_by_socket_state (streamOn offline)) as (_ & H2 & _).
  destruct (X13_disconnect_by_socket_state busy) as (_ & _ & H3).
  rewrite (H1 eq_refl), (H2 offline eq_refl eq_refl), (H3 online eq_refl eq_refl).
  repeat split.
Defined.

Lemma X14_witness :
  isWhitespacePing (dataBuffer (d established) +:+ "<mess") = false /\
  setContent (completeXml (set_dataBuffer (dataBuffer (d established) +:+ "<mess")
                                          (d established))) = None /\
  isWhitespacePing (dataBuffer (d established) +:+ ("<mess" +:+ "age")) = false /\
  setContent (completeXml (set_dataBuffer (dataBuffer (d established) +:+ ("<mess" +:+ "age"))
                                          (d established))) = None /\
  isWhitespacePing (dataBuffer (d established) +:+ ("<mess" +:+ "age/>")) = false /\
  setContent (completeXml (set_dataBuffer (dataBuffer (d established) +:+ ("<mess" +:+ "age/>"))
                                          (d established))) = Some (root [message]) /\
  handleTextMessageReceived "age" (exec (handleTextMessageReceived "<mess") established)
    = handleTextMessageReceived "<message" established /\
  trace (exec (handleTextMessageReceived "age/>")
              (exec (handleTextMessageReceived "<mess") established))
    = [Logged ReceivedMessage "age/>"; CalledHandleStanza message] /\
  trace (exec (handleTextMessageReceived "<message/>") established)
    = [Logged ReceivedMessage "<message/>"; CalledHandleStanza message].
Proof.
  split; [reflexivity|]. split; [reflexivity|]. split; [reflexivity|].
  split; [reflexivity|]. split; [reflexivity|]. split; [reflexivity|].
  pose proof (X14_chunks_are_put_together "<mess" "age" established
                eq_refl eq_refl eq_refl) as Hp.
  pose proof (X14_chunks_are_put_together "<mess" "age/>" established
                eq_refl eq_refl eq_refl) as Hc.
  cbn zeta in Hp, Hc. destruct Hp as [Hp _]. destruct Hc as [_ Hc].
  destruct (Hp eq_refl) as [Hp1 _].
  destruct (Hc (root [message]) eq_refl) as [Hc1 Hc2].
  split; [exact Hp1|]. split.
  - unfold exec at 1. rewrite Hc1. vm_compute. reflexivity.
  - unfold exec. change ("<message/>") with ("<mess" +:+ "age/>"). rewrite Hc2.
    vm_compute. reflexivity.
Defined.

Lemma X15_witness :
  (exists before,
     dataBuffer (set_dataBuffer "<message/></stream:stream>" (d established))
     = before +:+ streamRootElementEnd) /\
  contains_endStreamRegex
    (dataBuffer (set_dataBuffer "<message/></stream:stream>" (d established))) = true.
Proof.
  assert (exists before,
            dataBuffer (set_dataBuffer "<message/></stream:stream>" (d established))
            = before +:+ streamRootElementEnd) as Hex
    by (exists "<message/>"; reflexivity).
  split; [exact Hex|].
  destruct (X15_stream_end_is_the_closing_tag_at_the_very_end
              (set_dataBuffer "<message/></stream:stream>" (d established))) as [[_ H] _].
  exact (H Hex).
Defined.

Lemma X16_witness :
  streamManagementEnabled (d exhausted) = true /\
  isXmppStanza chat = true /\
  lastOutgoingSequenceNumber (d exhausted) = UINT_MODULUS - 1 /\
  ledger_numbered (d exhausted) /\
  lastOutgoingSequenceNumber (d (exec (sendPacket chat) exhausted)) = 0 /\
  unacknowledgedStanzas (d (exec (sendPacket chat) exhausted)) !! 0 = Some "<message/>" /\
  unacknowledgedStanzas
    (d (exec (setAcknowledgedSequenceNumber 0) (exec (sendPacket chat) exhausted)))
    = {[4294967295 := "<iq/>"]}.
Proof.
  split; [reflexivity|]. split; [reflexivity|]. split; [reflexivity|].
  split; [exact exhausted_numbered|].
  pose proof (X16_outgoing_counter_wraps_to_zero chat exhausted eq_refl eq_refl) as H.
  cbn zeta in H. destruct H as [_ H]. destruct (H eq_refl) as (H1 & H2 & H3).
  split; [exact H1|]. split; [exact H2|]. exact (H3 exhausted_numbered).
Defined.

Lemma X17_witness :
  isWhitespacePing (dataBuffer (d established) +:+ "<a xmlns='urn:xmpp:sm:3' h='1'/>") = false /\
  isEmpty (streamStart (d established)) = false /\
  contains_endStreamRegex
    (dataBuffer (d established) +:+ "<a xmlns='urn:xmpp:sm:3' h='1'/>") = false /\
  setContent (streamStart (d established)
              +:+ (dataBuffer (d established) +:+ "<a xmlns='urn:xmpp:sm:3' h='1'/>")
              +:+ streamRootElementEnd) = Some (root [ack "1"]) /\
  isStreamManagementAck (ack "1") = true /\
  unacknowledgedStanzas
    (d (exec (handleTextMessageReceived "<a xmlns='urn:xmpp:sm:3' h='1'/>") established))
    = {[2 := "<iq/>"]} /\
  trace (exec (handleTextMessageReceived "<a xmlns='urn:xmpp:sm:3' h='1'/>") established)
    = [Logged ReceivedMessage "<a xmlns='urn:xmpp:sm:3' h='1'/>"].
Proof.
  split; [reflexivity|]. split; [reflexivity|]. split; [reflexivity|].
  split; [reflexivity|]. split; [reflexivity|].
  pose proof (X17_received_acknowledgement_trims_the_ledger
                "<a xmlns='urn:xmpp:sm:3' h='1'/>" established (root [ack "1"]) (ack "1")
                eq_refl eq_refl eq_refl eq_refl eq_refl eq_refl eq_refl) as H.
  unfold exec. rewrite H. split; [vm_compute; reflexivity|reflexivity].
Defined.

End ExtraExamples.
